(** * CdkPipelineStack: the pipeline topology declared by [CdkPipelineStack.py]

    The stack constructor of [CdkPipelineStack.py] instantiates CDK
    constructs one after the other inside the stack scope [self].  Every
    instantiation registers a child in that scope, and
    [add_to_resource_policy] mutates a bucket that later constructs keep
    referring to.  The embedding below threads the stack through a small
    state-and-error monad; a construct that is passed around in the Python
    code (the bucket, the repository, the roles, the build project) is a
    handle into the stack, so that sharing is visible.

    A construct is recorded with the properties the source passes to it.
    Of what the SDK does on its own, the model keeps the one effect that
    bears on the permissions of the two roles the source creates: a build
    project and a pipeline each add, to the default policy of the role they
    are given, a read-write grant on the bucket they are given.  Generated
    logical ids, the roles and rules the SDK creates for the pipeline's
    actions and the other statements it puts in a default policy (build
    logs, report groups, pulling the repository) are not modelled. *)

From Stdlib Require Import String Ascii List Bool Arith Lia.
Import ListNotations.

Local Open Scope string_scope.
Local Open Scope list_scope.

(** ** Strings that carry deploy-time tokens

    [value_as_string] and [bucket_arn] do not return text: they return a
    token that the provisioning service replaces at deployment.  A Python
    string built from them (an f-string) is a sequence of literal pieces and
    tokens. *)

Inductive Token : Type :=
| Lit (s : string)
| Ref (logical_id : string)
| GetAtt (logical_id : string) (attribute : string).

Definition tstr : Type := list Token.

Definition lit (s : string) : tstr := [Lit s].

(** Association lists stand for the Python dict literals and for the child
    table of a scope (creation order is kept). *)

Fixpoint assoc {A : Type} (k : string) (l : list (string * A)) : option A :=
  match l with
  | [] => None
  | (k', v) :: l' => if String.eqb k k' then Some v else assoc k l'
  end.

Fixpoint update {A : Type} (k : string) (v : A) (l : list (string * A))
  : list (string * A) :=
  match l with
  | [] => []
  | (k', v') :: l' =>
      if String.eqb k k' then (k', v) :: l' else (k', v') :: update k v l'
  end.

(** ** IAM *)

Module Iam.

Inductive Effect : Type := ALLOW | DENY.

Inductive Principal : Type :=
| AnyPrincipal
| ServicePrincipal (service : string).

Record PolicyStatement : Type := {
  actions : list string;
  resources : list tstr;
  conditions : list (string * list (string * string));
  effect : Effect;
  principals : list Principal
}.

(** [iam.PolicyStatement(actions=..., resources=...)]: the arguments left
    out take the constructor's defaults (effect ALLOW, no condition, no
    principal). *)
Definition PolicyStatement_default (acts : list string) (res : list tstr)
  : PolicyStatement :=
  {| actions := acts; resources := res; conditions := [];
     effect := ALLOW; principals := [] |}.

Record PolicyDocument : Type := { statements : list PolicyStatement }.

Inductive ManagedPolicy : Type :=
| from_aws_managed_policy_name (name : string).

(** A role holds what [iam.Role(...)] is given (who may assume it, the
    managed policies, the inline policies) and its default policy, empty
    at creation, to which later constructs add statements. *)
Record Role : Type := {
  assumed_by : Principal;
  managed_policies : list ManagedPolicy;
  inline_policies : list (string * PolicyDocument);
  default_policy : list PolicyStatement
}.

Definition effect_eqb (a b : Effect) : bool :=
  match a, b with
  | ALLOW, ALLOW | DENY, DENY => true
  | _, _ => false
  end.

End Iam.
Export Iam.

(** ** The constructs the stack instantiates *)

Definition handle : Type := string.

Record CfnParameter : Type := {
  param_id : string;
  param_type : string;
  param_description : string;
  param_default : option string
}.

Definition value_as_string (p : CfnParameter) : tstr := [Ref (param_id p)].

Inductive BucketEncryption : Type := UNENCRYPTED | S3_MANAGED | KMS_MANAGED | KMS.

Inductive RemovalPolicy : Type := DESTROY | RETAIN | SNAPSHOT.

Record Bucket : Type := {
  bucket_name : tstr;
  encryption : BucketEncryption;
  removal_policy : RemovalPolicy;
  resource_policy : list PolicyStatement
}.

Definition bucket_arn (b : handle) : tstr := [GetAtt b "Arn"].

Record Repository : Type := { repository_name : tstr }.

Inductive LinuxBuildImage : Type := STANDARD_4_0 | STANDARD_5_0 | STANDARD_6_0.

Inductive ComputeType : Type := SMALL | MEDIUM | LARGE.

Record BuildEnvironment : Type := {
  build_image : LinuxBuildImage;
  compute_type : ComputeType
}.

Inductive Source : Type :=
| code_commit (repository : handle).

Record Artifacts : Type := {
  bucket : handle;
  include_build_id : bool;
  package_zip : bool;
  path : string;
  identifier : string;
  artifacts_encryption : bool
}.

Record Project : Type := {
  project_name : string;
  role : handle;
  environment : BuildEnvironment;
  source : Source;
  artifacts : Artifacts
}.

Record Artifact : Type := { artifact_name : string }.

Inductive Action : Type :=
| CodeCommitSourceAction
    (action_name : string) (repository : handle) (branch : string)
    (output : Artifact)
| CodeBuildAction
    (action_name : string) (project : handle) (input : Artifact)
    (outputs : list Artifact).

Record StageProps : Type := {
  stage_name : string;
  stage_actions : list Action
}.

Record Pipeline : Type := {
  pipeline_name : string;
  pipeline_role : handle;
  artifact_bucket : handle;
  stages : list StageProps
}.

Inductive Construct : Type :=
| CParameter (p : CfnParameter)
| CBucket (b : Bucket)
| CRepository (r : Repository)
| CRole (r : Role)
| CProject (p : Project)
| CPipeline (p : Pipeline).

(** ** Scopes: the stack and the application it is created in *)

Record Stack : Type := {
  stack_kwargs : list (string * string);
  children : list (string * Construct)
}.

Definition App : Type := list (string * Stack).

Inductive Error : Type :=
| DuplicateId (id : string)
| NotABucket (id : string)
| NotARole (id : string).

Module StackM.

Definition M (A : Type) : Type := Stack -> Error + (A * Stack).

Definition ret {A : Type} (a : A) : M A := fun s => inr (a, s).

Definition bind {A B : Type} (m : M A) (k : A -> M B) : M B :=
  fun s =>
    match m s with
    | inl e => inl e
    | inr (a, s') => k a s'
    end.

Definition raise {A : Type} (e : Error) : M A := fun _ => inl e.

End StackM.
Import StackM.

Notation "x <- m ;; k" := (bind m (fun x => k))
  (at level 61, m at next level, right associativity).
Notation "m ;;; k" := (bind m (fun _ => k))
  (at level 61, right associativity).

(** Instantiating a construct [C(self, id, ...)] registers it under [id] in
    the scope; an id that is already taken there is an error. *)
Definition new_construct (id : string) (c : Construct) : M handle :=
  fun s =>
    match assoc id (children s) with
    | Some _ => raise (DuplicateId id) s
    | None =>
        inr (id, {| stack_kwargs := stack_kwargs s;
                    children := children s ++ [(id, c)] |})
    end.

Definition new_CfnParameter (id type description : string) : M CfnParameter :=
  let p := {| param_id := id; param_type := type;
              param_description := description; param_default := None |} in
  _ <- new_construct id (CParameter p) ;;
  ret p.

Definition new_Bucket (id : string) (name : tstr) (enc : BucketEncryption)
    (rp : RemovalPolicy) : M handle :=
  new_construct id
    (CBucket {| bucket_name := name; encryption := enc;
                removal_policy := rp; resource_policy := [] |}).

(** [bucket.add_to_resource_policy(statement)] appends the statement to the
    policy of the bucket object itself: every later use of the bucket sees
    it. *)
Definition add_to_resource_policy (b : handle) (st : PolicyStatement)
  : M unit :=
  fun s =>
    match assoc b (children s) with
    | Some (CBucket bk) =>
        let bk' := {| bucket_name := bucket_name bk;
                      encryption := encryption bk;
                      removal_policy := removal_policy bk;
                      resource_policy := resource_policy bk ++ [st] |} in
        inr (tt, {| stack_kwargs := stack_kwargs s;
                    children := update b (CBucket bk') (children s) |})
    | _ => raise (NotABucket b) s
    end.

Definition new_Repository (id : string) (name : tstr) : M handle :=
  new_construct id (CRepository {| repository_name := name |}).

Definition new_Role (id : string) (assumed : Principal)
    (managed : list ManagedPolicy)
    (inline : list (string * PolicyDocument)) : M handle :=
  new_construct id
    (CRole {| assumed_by := assumed; managed_policies := managed;
              inline_policies := inline; default_policy := [] |}).

(** What [bucket.grant_read_write(grantee)] adds to the grantee's policy:
    the read, delete and put actions on the bucket and on its keys. *)
Definition grant_read_write (b : handle) : PolicyStatement :=
  PolicyStatement_default
    ["s3:GetObject*"; "s3:GetBucket*"; "s3:List*"; "s3:DeleteObject*";
     "s3:PutObject"; "s3:PutObjectLegalHold"; "s3:PutObjectRetention";
     "s3:PutObjectTagging"; "s3:PutObjectVersionTagging"; "s3:Abort*"]
    [bucket_arn b; bucket_arn b ++ lit "/*"].

(** Adding a statement to the default policy of a role mutates the role
    object itself, as [add_to_resource_policy] does for a bucket. *)
Definition add_to_role_policy (r : handle) (st : PolicyStatement) : M unit :=
  fun s =>
    match assoc r (children s) with
    | Some (CRole rl) =>
        let rl' := {| assumed_by := assumed_by rl;
                      managed_policies := managed_policies rl;
                      inline_policies := inline_policies rl;
                      default_policy := default_policy rl ++ [st] |} in
        inr (tt, {| stack_kwargs := stack_kwargs s;
                    children := update r (CRole rl') (children s) |})
    | _ => raise (NotARole r) s
    end.

(** [codebuild.Project(self, id, role=..., artifacts=Artifacts.s3(bucket=
    ...))] registers the project and, binding its artifacts, grants its
    role read-write access to the artifacts bucket. *)
Definition new_Project (id : string) (p : Project) : M handle :=
  h <- new_construct id (CProject p) ;;
  add_to_role_policy (role p) (grant_read_write (bucket (artifacts p))) ;;;
  ret h.

(** [codepipeline.Pipeline(self, id, role=..., artifact_bucket=...)]
    registers the pipeline and grants its role read-write access to the
    artifact bucket. *)
Definition new_Pipeline (id : string) (p : Pipeline) : M handle :=
  h <- new_construct id (CPipeline p) ;;
  add_to_role_policy (pipeline_role p)
    (grant_read_write (artifact_bucket p)) ;;;
  ret h.

(** ** The stack constructor

    The body of [CdkPipelineStack.__init__] after [super().__init__],
    statement by statement. *)
Definition CdkPipelineStack_init : M unit :=
  project_url <-
    new_CfnParameter "projectUrl" "String"
      "My software pipeline delivery template using Cloudformation and CodeCommit" ;;
  s3_bucket_name <-
    new_CfnParameter "S3BucketName" "String"
      "S3 bucket name for storing artifacts" ;;
  repository_name <-
    new_CfnParameter "RepositoryName" "String"
      "CodeCommit repository name" ;;
  artifact_bucket <-
    new_Bucket "ArtifactBucket"
      (value_as_string s3_bucket_name) S3_MANAGED DESTROY ;;
  add_to_resource_policy artifact_bucket
    {| actions := ["s3:PutObject"];
       resources := [bucket_arn artifact_bucket ++ lit "/*"];
       conditions :=
         [("StringNotEquals",
           [("s3:x-amz-server-side-encryption", "aws:kms")])];
       effect := DENY;
       principals := [AnyPrincipal] |} ;;;
  repository <-
    new_Repository "JavaProjectRepository"
      (value_as_string repository_name) ;;
  build_project_role <-
    new_Role "AppBuildRole"
      (ServicePrincipal "codebuild.amazonaws.com")
      [from_aws_managed_policy_name "AmazonS3ReadOnlyAccess"]
      [("CodeBuildAccess",
        {| statements :=
             [PolicyStatement_default
                ["s3:PutObject"; "s3:GetObject"; "s3:GetObjectVersion";
                 "s3:GetBucketAcl"; "s3:GetBucketLocation"]
                [lit "arn:aws:s3:::" ++ value_as_string s3_bucket_name;
                 lit "arn:aws:s3:::" ++ value_as_string s3_bucket_name
                   ++ lit "/*"]] |})] ;;
  build_project <-
    new_Project "AppBuildProject"
      {| project_name := "AppBuildProject";
         role := build_project_role;
         environment :=
           {| build_image := STANDARD_5_0; compute_type := SMALL |};
         source := code_commit repository;
         artifacts :=
           {| bucket := artifact_bucket;
              include_build_id := false;
              package_zip := true;
              path := "";
              identifier := "BuildOutput";
              artifacts_encryption := true |} |} ;;
  pipeline_role <-
    new_Role "CodePipelineServiceRole"
      (ServicePrincipal "codepipeline.amazonaws.com")
      [from_aws_managed_policy_name "AmazonS3ReadOnlyAccess"]
      [("ec2codedeploy",
        {| statements :=
             [PolicyStatement_default
                ["s3:GetObject"; "s3:GetBucketAcl"; "s3:GetBucketLocation"]
                [bucket_arn artifact_bucket;
                 bucket_arn artifact_bucket ++ lit "/*"]] |})] ;;
  _ <-
    new_Pipeline "AppPipeline"
      {| pipeline_name := "AppPipeline";
         pipeline_role := pipeline_role;
         artifact_bucket := artifact_bucket;
         stages :=
           [ {| stage_name := "Source";
                stage_actions :=
                  [CodeCommitSourceAction "SourceAction" repository "master"
                     {| artifact_name := "SourceOutput" |}] |};
             {| stage_name := "Build";
                stage_actions :=
                  [CodeBuildAction "BuildAction" build_project
                     {| artifact_name := "SourceOutput" |}
                     [{| artifact_name := "BuildOutput" |}]] |} ] |} ;;
  ret tt.

(** [CdkPipelineStack(scope, construct_id, **kwargs)]: [super().__init__]
    registers the empty stack in [scope] (the id must be free there), then
    the body fills it.  The keyword arguments go to the [Stack] base class
    only; the body never reads them.

    The base class is modelled on the arguments it accepts.  Its own
    checks on the id (not empty, a valid stack name), its rewriting of a
    path separator in the id and its checks on the names and types of the
    keyword arguments belong to the SDK and are not modelled: what is
    proved below of a run is to be read for a scope, an id and keyword
    arguments that the base class accepts. *)
Definition CdkPipelineStack (scope : App) (construct_id : string)
    (kwargs : list (string * string)) : Error + App :=
  match assoc construct_id scope with
  | Some _ => inl (DuplicateId construct_id)
  | None =>
      match CdkPipelineStack_init
              {| stack_kwargs := kwargs; children := [] |} with
      | inl e => inl e
      | inr (_, self) => inr (scope ++ [(construct_id, self)])
      end
  end.


(** The children the body creates do not depend on anything: the body
    takes no argument.  This is the table it leaves in the stack. *)
Definition topology : list (string * Construct) :=
  match CdkPipelineStack_init {| stack_kwargs := []; children := [] |} with
  | inr (_, self) => children self
  | inl _ => []
  end.

(** ** Reading a stack *)

Definition is_parameter (c : Construct) : bool :=
  match c with CParameter _ => true | _ => false end.

Definition parameters (self : Stack) : list CfnParameter :=
  flat_map (fun kc => match snd kc with CParameter p => [p] | _ => [] end)
    (children self).

Definition resource_entities (self : Stack) : list (string * Construct) :=
  filter (fun kc => negb (is_parameter (snd kc))) (children self).

Definition get_bucket (self : Stack) (h : handle) : option Bucket :=
  match assoc h (children self) with Some (CBucket b) => Some b | _ => None end.

Definition get_repository (self : Stack) (h : handle) : option Repository :=
  match assoc h (children self) with
  | Some (CRepository r) => Some r
  | _ => None
  end.

Definition get_role (self : Stack) (h : handle) : option Role :=
  match assoc h (children self) with Some (CRole r) => Some r | _ => None end.

Definition get_project (self : Stack) (h : handle) : option Project :=
  match assoc h (children self) with
  | Some (CProject p) => Some p
  | _ => None
  end.

Definition get_pipeline (self : Stack) (h : handle) : option Pipeline :=
  match assoc h (children self) with
  | Some (CPipeline p) => Some p
  | _ => None
  end.

Definition inline_statements (r : Role) : list PolicyStatement :=
  flat_map (fun kd => statements (snd kd)) (inline_policies r).

Definition deny_statements (b : Bucket) : list PolicyStatement :=
  filter (fun s => effect_eqb (effect s) DENY) (resource_policy b).

Definition action_output_names (a : Action) : list string :=
  match a with
  | CodeCommitSourceAction _ _ _ o => [artifact_name o]
  | CodeBuildAction _ _ _ os => map artifact_name os
  end.

Definition action_input_names (a : Action) : list string :=
  match a with
  | CodeCommitSourceAction _ _ _ _ => []
  | CodeBuildAction _ _ i _ => [artifact_name i]
  end.

Definition stage_outputs (s : StageProps) : list string :=
  flat_map action_output_names (stage_actions s).

Definition stage_inputs (s : StageProps) : list string :=
  flat_map action_input_names (stage_actions s).

Definition source_repository (s : Source) : handle :=
  match s with code_commit r => r end.

(** ** What the tokens stand for at deployment

    The provisioning service replaces [Ref p] by the value given for the
    parameter [p] (or its default) and [GetAtt b "Arn"] by the ARN of the
    bucket [b], which is made of the partition and of the bucket's name. *)

Module Deploy.

Record Env : Type := {
  partition : string;
  parameter_values : list (string * string)
}.

Definition s3_arn (part name : string) : string :=
  ("arn:" ++ part ++ ":s3:::" ++ name)%string.

Fixpoint map_option {A B : Type} (f : A -> option B) (l : list A)
  : option (list B) :=
  match l with
  | [] => Some []
  | a :: l' =>
      match f a, map_option f l' with
      | Some b, Some bs => Some (b :: bs)
      | _, _ => None
      end
  end.

Section Resolve.

Variable env : Env.
Variable self : Stack.

Definition parameter_value (p : string) : option string :=
  match assoc p (children self) with
  | Some (CParameter d) =>
      match assoc p (parameter_values env) with
      | Some v => Some v
      | None => param_default d
      end
  | _ => None
  end.

Section WithAttributes.

Variable attribute_value : string -> string -> option string.

Definition resolve_token (t : Token) : option string :=
  match t with
  | Lit s => Some s
  | Ref p => parameter_value p
  | GetAtt h a => attribute_value h a
  end.

Fixpoint resolve_with (t : tstr) : option string :=
  match t with
  | [] => Some ""
  | tok :: t' =>
      match resolve_token tok, resolve_with t' with
      | Some s, Some r => Some (s ++ r)%string
      | _, _ => None
      end
  end.

End WithAttributes.

(** A name is made of literals and parameter references only. *)
Definition resolve_name : tstr -> option string :=
  resolve_with (fun _ _ => None).

Definition bucket_attribute (h a : string) : option string :=
  if String.eqb a "Arn" then
    match get_bucket self h with
    | Some b => option_map (s3_arn (partition env))
                  (resolve_name (bucket_name b))
    | None => None
    end
  else None.

Definition resolve : tstr -> option string :=
  resolve_with bucket_attribute.

Definition resolve_resources (s : PolicyStatement) : option (list string) :=
  map_option resolve (resources s).

(** The constructs with every token replaced. *)
Definition deploy_statement (s : PolicyStatement) : option PolicyStatement :=
  option_map
    (fun rs => {| actions := actions s; resources := map lit rs;
                  conditions := conditions s; effect := effect s;
                  principals := principals s |})
    (resolve_resources s).

Definition deploy_document (kd : string * PolicyDocument)
  : option (string * PolicyDocument) :=
  option_map (fun ss => (fst kd, {| statements := ss |}))
    (map_option deploy_statement (statements (snd kd))).

Definition deploy_construct (c : Construct) : option Construct :=
  match c with
  | CParameter _ | CProject _ | CPipeline _ => Some c
  | CBucket b =>
      match resolve_name (bucket_name b),
            map_option deploy_statement (resource_policy b) with
      | Some n, Some pol =>
          Some (CBucket {| bucket_name := lit n;
                           encryption := encryption b;
                           removal_policy := removal_policy b;
                           resource_policy := pol |})
      | _, _ => None
      end
  | CRepository r =>
      option_map (fun n => CRepository {| repository_name := lit n |})
        (resolve_name (repository_name r))
  | CRole r =>
      match map_option deploy_document (inline_policies r),
            map_option deploy_statement (default_policy r) with
      | Some ds, Some pol =>
          Some (CRole {| assumed_by := assumed_by r;
                         managed_policies := managed_policies r;
                         inline_policies := ds;
                         default_policy := pol |})
      | _, _ => None
      end
  end.

Definition deploy_child (kc : string * Construct)
  : option (string * Construct) :=
  option_map (fun c => (fst kc, c)) (deploy_construct (snd kc)).

(** The resources with their tokens resolved.  Whether every declared
    parameter has a value is not looked at here: [deploy] checks it. *)
Definition deploy_resources : option (list (string * Construct)) :=
  map_option deploy_child (resource_entities self).

End Resolve.

(** Does a string, a statement, a construct mention the parameter [p]? *)
Definition mentions (p : string) (t : tstr) : bool :=
  existsb (fun tok => match tok with
                      | Ref q => String.eqb q p
                      | _ => false
                      end) t.

Definition statement_mentions (p : string) (s : PolicyStatement) : bool :=
  existsb (mentions p) (resources s).

Definition construct_mentions (p : string) (c : Construct) : bool :=
  match c with
  | CParameter _ | CProject _ | CPipeline _ => false
  | CBucket b =>
      mentions p (bucket_name b)
      || existsb (statement_mentions p) (resource_policy b)
  | CRepository r => mentions p (repository_name r)
  | CRole r =>
      existsb (statement_mentions p) (inline_statements r)
      || existsb (statement_mentions p) (default_policy r)
  end.

Definition stack_mentions (p : string) (self : Stack) : bool :=
  existsb (fun kc => construct_mentions p (snd kc)) (resource_entities self).

(** Two deployments that may differ in the value of [p] only. *)
Definition agree_except (p : string) (e1 e2 : Env) : Prop :=
  partition e1 = partition e2 /\
  forall q, q <> p ->
    assoc q (parameter_values e1) = assoc q (parameter_values e2).

End Deploy.
Import Deploy.

(** ** How a statement is matched against a request

    A pattern matches a text when they are equal up to the wildcards [*]
    (any run of characters) and [?] (any one character). *)
Fixpoint glob (p s : string) : bool :=
  match p with
  | EmptyString =>
      match s with EmptyString => true | String _ _ => false end
  | String c p' =>
      if Ascii.eqb c "*" then
        (fix star (s : string) : bool :=
           glob p' s
           || match s with
              | EmptyString => false
              | String _ s' => star s'
              end) s
      else
        match s with
        | EmptyString => false
        | String d s' => (Ascii.eqb c "?" || Ascii.eqb c d) && glob p' s'
        end
  end.

Record Request : Type := {
  req_principal : string;
  req_action : string;
  req_resource : string;
  req_context : list (string * string)
}.

Definition principal_matches (req : Request) (p : Principal) : bool :=
  match p with
  | AnyPrincipal => true
  | ServicePrincipal s => String.eqb s (req_principal req)
  end.

(** [StringNotEquals] holds when the key is absent from the request or
    carries another value; [StringEquals] needs the key with that value. *)
Definition condition_holds (req : Request) (op : string)
    (kv : string * string) : bool :=
  match assoc (fst kv) (req_context req) with
  | Some v =>
      if String.eqb op "StringEquals" then String.eqb v (snd kv)
      else if String.eqb op "StringNotEquals" then negb (String.eqb v (snd kv))
      else false
  | None => String.eqb op "StringNotEquals"
  end.

Definition conditions_hold (req : Request)
    (cs : list (string * list (string * string))) : bool :=
  forallb (fun c => forallb (condition_holds req (fst c)) (snd c)) cs.

(** A statement of a resource policy applies to a request when its
    principals, actions, resources and conditions all match. *)
Definition statement_applies (env : Env) (self : Stack)
    (s : PolicyStatement) (req : Request) : bool :=
  match resolve_resources env self s with
  | Some rs =>
      existsb (principal_matches req) (principals s)
      && existsb (fun a => glob a (req_action req)) (actions s)
      && existsb (fun r => glob r (req_resource req)) rs
      && conditions_hold req (conditions s)
  | None => false
  end.

Definition explicitly_denied (env : Env) (self : Stack) (b : Bucket)
    (req : Request) : bool :=
  existsb (fun s => statement_applies env self s req) (deny_statements b).

(** The ARN of the object stored under [key] in the bucket of ARN [arn]. *)
Definition object_arn (arn key : string) : string :=
  (arn ++ "/" ++ key)%string.


(** ** Vocabulary of the properties *)

Definition is_bucket (c : Construct) : bool :=
  match c with CBucket _ => true | _ => false end.

Definition is_repository (c : Construct) : bool :=
  match c with CRepository _ => true | _ => false end.

Definition is_project (c : Construct) : bool :=
  match c with CProject _ => true | _ => false end.

Definition is_pipeline (c : Construct) : bool :=
  match c with CPipeline _ => true | _ => false end.

Definition is_role (c : Construct) : bool :=
  match c with CRole _ => true | _ => false end.

(** The ids of the children of one kind, in creation order. *)
Definition ids_of (kind : Construct -> bool) (self : Stack) : list string :=
  map fst (filter (fun kc => kind (snd kc)) (children self)).

Definition resource_ids (self : Stack) : list string :=
  map fst (resource_entities self).

Definition required_parameters : list string :=
  ["projectUrl"; "S3BucketName"; "RepositoryName"].

Definition permission_layers (r : Role) : nat :=
  length (managed_policies r) + length (inline_policies r).

(** The permission layers a role carries: its managed policies, its
    inline policies and, once a construct has added a statement to it, its
    default policy. *)
Definition carried_layers (r : Role) : nat :=
  permission_layers r
  + match default_policy r with [] => 0 | _ :: _ => 1 end.

Definition same_actions (l1 l2 : list string) : Prop :=
  NoDup l1 /\ forall a, In a l1 <-> In a l2.

(** The actions that only read: [s3:Get...]. *)
Definition is_read_action (a : string) : bool := String.prefix "s3:Get" a.

Definition sse_header : string := "s3:x-amz-server-side-encryption".

Definition put_object (who arn key : string) (ctx : list (string * string))
  : Request :=
  {| req_principal := who; req_action := "s3:PutObject";
     req_resource := object_arn arn key; req_context := ctx |}.

(** The resource set made of the bucket named [n] and of its object keys. *)
Definition bucket_and_keys (part n : string) : list string :=
  [s3_arn part n; (s3_arn part n ++ "/*")%string].

(** A deployment used in the examples. *)
Definition sample_env : Env :=
  {| partition := "aws";
     parameter_values :=
       [("projectUrl", "https://example.org/project");
        ("S3BucketName", "my-bucket");
        ("RepositoryName", "my-repo")] |}.


(** ** Vocabulary of the further properties *)

(** A text without wildcard: as a pattern it stands for itself only. *)
Fixpoint wildcard_free (s : string) : bool :=
  match s with
  | EmptyString => true
  | String c s' =>
      negb (Ascii.eqb c "*") && negb (Ascii.eqb c "?") && wildcard_free s'
  end.

(** The same values deployed in a region of the "aws-cn" partition. *)
Definition aws_cn_env : Env :=
  {| partition := "aws-cn";
     parameter_values := parameter_values sample_env |}.

(** A deployment is refused when a declared parameter has neither a value
    nor a default; otherwise the tokens of the resources are resolved. *)
Definition parameters_supplied (env : Env) (self : Stack) : bool :=
  forallb (fun p => match parameter_value env self (param_id p) with
                    | Some _ => true
                    | None => false
                    end)
    (parameters self).

Definition deploy (env : Env) (self : Stack)
  : option (list (string * Construct)) :=
  if parameters_supplied env self then deploy_resources env self else None.

(** The deployment that supplies the two names and nothing else. *)
Definition names_env (part n m : string) : Env :=
  {| partition := part;
     parameter_values := [("S3BucketName", n); ("RepositoryName", m)] |}.

Definition supplied (env : Env) (p : string) : option string :=
  assoc p (parameter_values env).

(** Does the request carry the header that asks for KMS encryption? *)
Definition kms_header (ctx : list (string * string)) : bool :=
  match assoc sse_header ctx with
  | Some v => String.eqb v "aws:kms"
  | None => false
  end.

(** The resources of a bucket: the bucket itself and its object keys. *)
Definition in_bucket (arn r : string) : Prop :=
  r = arn \/ exists key, r = object_arn arn key.

(** A statement of an identity policy (a role's inline policy) has no
    principal of its own: it matches a request of the role on actions,
    resources and conditions. *)
Definition statement_matches (env : Env) (self : Stack)
    (s : PolicyStatement) (req : Request) : bool :=
  match resolve_resources env self s with
  | Some rs =>
      existsb (fun a => glob a (req_action req)) (actions s)
      && existsb (fun r => glob r (req_resource req)) rs
      && conditions_hold req (conditions s)
  | None => false
  end.

Definition inline_allows (env : Env) (self : Stack) (r : Role)
    (req : Request) : bool :=
  existsb (fun s => effect_eqb (effect s) ALLOW
                    && statement_matches env self s req)
    (inline_statements r).

(** Cross-references: a handle must name a child of the right kind, a
    [Ref] a declared parameter, a [GetAtt] a bucket. *)
Definition has_kind (kind : Construct -> bool) (self : Stack) (h : handle)
  : bool :=
  match assoc h (children self) with
  | Some c => kind c
  | None => false
  end.

Definition token_linked (self : Stack) (t : Token) : bool :=
  match t with
  | Lit _ => true
  | Ref p => has_kind is_parameter self p
  | GetAtt h _ => has_kind is_bucket self h
  end.

Definition statement_linked (self : Stack) (s : PolicyStatement) : bool :=
  forallb (forallb (token_linked self)) (resources s).

Definition action_linked (self : Stack) (a : Action) : bool :=
  match a with
  | CodeCommitSourceAction _ r _ _ => has_kind is_repository self r
  | CodeBuildAction _ p _ _ => has_kind is_project self p
  end.

Definition construct_linked (self : Stack) (c : Construct) : bool :=
  match c with
  | CParameter _ => true
  | CBucket b =>
      forallb (token_linked self) (bucket_name b)
      && forallb (statement_linked self) (resource_policy b)
  | CRepository r => forallb (token_linked self) (repository_name r)
  | CRole r =>
      forallb (statement_linked self) (inline_statements r)
      && forallb (statement_linked self) (default_policy r)
  | CProject p =>
      has_kind is_role self (role p)
      && has_kind is_repository self (source_repository (source p))
      && has_kind is_bucket self (bucket (artifacts p))
  | CPipeline p =>
      has_kind is_role self (pipeline_role p)
      && has_kind is_bucket self (artifact_bucket p)
      && forallb (fun s => forallb (action_linked self) (stage_actions s))
           (stages p)
  end.

Definition well_linked (self : Stack) : bool :=
  forallb (fun kc => construct_linked self (snd kc)) (children self).

(** The repository a source action pulls from, the project a build action
    runs. *)
Definition action_repositories (a : Action) : list handle :=
  match a with
  | CodeCommitSourceAction _ r _ _ => [r]
  | CodeBuildAction _ _ _ _ => []
  end.

Definition action_projects (a : Action) : list handle :=
  match a with
  | CodeCommitSourceAction _ _ _ _ => []
  | CodeBuildAction _ p _ _ => [p]
  end.

(** Every input of a stage is the output of an earlier stage, and no
    artifact name is output twice. *)
Fixpoint artifacts_flow (available : list string) (ss : list StageProps)
  : bool :=
  match ss with
  | [] => true
  | s :: ss' =>
      forallb (fun i => existsb (String.eqb i) available) (stage_inputs s)
      && forallb (fun o => negb (existsb (String.eqb o) available))
           (stage_outputs s)
      && artifacts_flow (available ++ stage_outputs s) ss'
  end.


(** * Properties *)

(** ** Running the constructor *)

Lemma CdkPipelineStack_init_children (kw : list (string * string)) :
  CdkPipelineStack_init {| stack_kwargs := kw; children := [] |}
  = inr (tt, {| stack_kwargs := kw; children := topology |}).
Proof. reflexivity. Qed.

Lemma CdkPipelineStack_fresh (scope : App) (id : string)
    (kw : list (string * string)) :
  assoc id scope = None ->
  CdkPipelineStack scope id kw
  = inr (scope ++ [(id, {| stack_kwargs := kw; children := topology |})]).
Proof.
  intros Hfresh. unfold CdkPipelineStack.
  now rewrite Hfresh, CdkPipelineStack_init_children.
Qed.

(** ** Strings and patterns *)

Example glob_key_under_bucket :
  glob "arn:aws:s3:::my-bucket/*" "arn:aws:s3:::my-bucket/build/app.zip"
  = true.
Proof. reflexivity. Qed.

Example glob_not_the_bucket_itself :
  glob "arn:aws:s3:::my-bucket/*" "arn:aws:s3:::my-bucket" = false.
Proof. reflexivity. Qed.

Example glob_other_bucket :
  glob "arn:aws:s3:::my-bucket/*" "arn:aws:s3:::my-bucket2/app.zip" = false.
Proof. reflexivity. Qed.

Example glob_question_mark : glob "s3:Get?bject*" "s3:GetObjectVersion" = true.
Proof. reflexivity. Qed.

Lemma append_empty_r (s : string) : (s ++ "")%string = s.
Proof. induction s as [|c s IH]; simpl; [reflexivity | now rewrite IH]. Qed.

Lemma append_assoc (a b c : string) :
  ((a ++ b) ++ c)%string = (a ++ (b ++ c))%string.
Proof. induction a as [|x a IH]; simpl; [reflexivity | now rewrite IH]. Qed.

Lemma glob_star_any (s : string) : glob "*" s = true.
Proof.
  induction s as [|c s IH]; [reflexivity |].
  simpl in *. exact IH.
Qed.

Lemma glob_star_skip (p : string) (c : ascii) (s : string) :
  glob (String "*" p) s = true -> glob (String "*" p) (String c s) = true.
Proof.
  intros H. simpl in *. rewrite H. apply orb_true_r.
Qed.

Lemma glob_star_here (p s : string) :
  glob p s = true -> glob (String "*" p) s = true.
Proof.
  intros H. destruct s; simpl; rewrite H; reflexivity.
Qed.

(** A text used as a pattern matches itself, whatever characters it holds,
    and the match extends to what follows. *)
Lemma glob_prefix (a p s : string) :
  glob p s = true -> glob (a ++ p) (a ++ s) = true.
Proof.
  intros H. induction a as [|c a IH]; [exact H |].
  change (glob (String c (a ++ p)) (String c (a ++ s)) = true).
  destruct (Ascii.eqb c "*") eqn:Hc.
  - apply Ascii.eqb_eq in Hc. subst c.
    apply glob_star_skip, glob_star_here, IH.
  - simpl. rewrite Hc, Ascii.eqb_refl, IH. apply andb_true_iff. split.
    + apply orb_true_r.
    + reflexivity.
Qed.

Lemma glob_under (arn key : string) :
  glob (arn ++ "/*") (object_arn arn key) = true.
Proof.
  unfold object_arn. apply glob_prefix.
  change (glob "/*" (String "/" key) = true).
  apply (glob_prefix "/" "*" key), glob_star_any.
Qed.

(** ** Resolution *)

Lemma resolve_with_app env self att (t1 t2 : tstr) :
  resolve_with env self att (t1 ++ t2)
  = match resolve_with env self att t1, resolve_with env self att t2 with
    | Some a, Some b => Some (a ++ b)%string
    | _, _ => None
    end.
Proof.
  induction t1 as [|tok t1 IH]; simpl.
  - now destruct (resolve_with env self att t2).
  - rewrite IH.
    destruct (resolve_token env self att tok); [|reflexivity].
    destruct (resolve_with env self att t1); [|reflexivity].
    destruct (resolve_with env self att t2); [|reflexivity].
    now rewrite append_assoc.
Qed.

Lemma resolve_lit env self (s : string) : resolve env self (lit s) = Some s.
Proof. unfold resolve. simpl. now rewrite append_empty_r. Qed.

Lemma resolve_suffix env self (t : tstr) (s r : string) :
  resolve env self t = Some r ->
  resolve env self (t ++ lit s) = Some (r ++ s)%string.
Proof.
  intros H. unfold resolve in *. rewrite resolve_with_app, H.
  fold (resolve env self (lit s)). now rewrite resolve_lit.
Qed.

Example resolve_sample_arn :
  resolve sample_env {| stack_kwargs := []; children := topology |}
    (bucket_arn "ArtifactBucket" ++ lit "/*")
  = Some "arn:aws:s3:::my-bucket/*".
Proof. reflexivity. Qed.

Example resolve_without_value :
  resolve {| partition := "aws"; parameter_values := [] |}
    {| stack_kwargs := []; children := topology |}
    (bucket_arn "ArtifactBucket")
  = None.
Proof. reflexivity. Qed.

(** ** The bucket policy *)

Lemma sse_condition (req : Request) :
  conditions_hold req [("StringNotEquals", [(sse_header, "aws:kms")])]
  = negb match assoc sse_header (req_context req) with
         | Some v => String.eqb v "aws:kms"
         | None => false
         end.
Proof.
  unfold conditions_hold, condition_holds. simpl.
  destruct (assoc sse_header (req_context req)) as [v|]; simpl.
  - now rewrite !andb_true_r.
  - reflexivity.
Qed.

(** C1. The policy of the artifact bucket holds exactly one statement, a
    DENY of [s3:PutObject] for any principal under the condition that the
    server-side-encryption header differs from "aws:kms".  Its resource
    pattern is the bucket's ARN followed by "/*", which matches the ARN of
    every object key of the bucket; so a PutObject of any key by any
    principal is denied when the header is absent or is not "aws:kms", and
    the statement does not apply when the header is "aws:kms". *)
Theorem deny_unless_kms (scope : App) (id : string)
    (kw : list (string * string)) :
  assoc id scope = None ->
  exists self b deny,
    CdkPipelineStack scope id kw = inr (scope ++ [(id, self)]) /\
    get_bucket self "ArtifactBucket" = Some b /\
    resource_policy b = [deny] /\
    deny_statements b = [deny] /\
    effect deny = DENY /\
    actions deny = ["s3:PutObject"] /\
    principals deny = [AnyPrincipal] /\
    conditions deny = [("StringNotEquals", [(sse_header, "aws:kms")])] /\
    resources deny = [bucket_arn "ArtifactBucket" ++ lit "/*"] /\
    forall env arn,
      resolve env self (bucket_arn "ArtifactBucket") = Some arn ->
      resolve_resources env self deny = Some [(arn ++ "/*")%string] /\
      (forall key, glob (arn ++ "/*") (object_arn arn key) = true) /\
      (forall who key ctx,
          assoc sse_header ctx <> Some "aws:kms" ->
          explicitly_denied env self b (put_object who arn key ctx) = true) /\
      (forall who key ctx,
          assoc sse_header ctx = Some "aws:kms" ->
          explicitly_denied env self b (put_object who arn key ctx) = false).
Proof.
  intros Hfresh.
  eexists. eexists. eexists.
  split; [apply (CdkPipelineStack_fresh _ _ _ Hfresh) |].
  split; [reflexivity |].
  split; [reflexivity |].
  do 6 (split; [reflexivity |]).
  intros env arn Harn.
  assert (Hres :
    map_option (resolve env {| stack_kwargs := kw; children := topology |})
      [bucket_arn "ArtifactBucket" ++ lit "/*"]
    = Some [(arn ++ "/*")%string]).
  { cbn [map_option]. now rewrite (resolve_suffix _ _ _ "/*" _ Harn). }
  split; [exact Hres |].
  split; [intros key; apply glob_under |].
  split.
  - intros who key ctx Hctx.
    unfold explicitly_denied. cbn [deny_statements filter resource_policy
      effect effect_eqb existsb app].
    unfold statement_applies, resolve_resources. cbn [resources].
    rewrite Hres.
    cbn [principals actions conditions existsb principal_matches].
    rewrite sse_condition. cbn [req_context put_object req_action req_resource].
    rewrite glob_under.
    destruct (assoc sse_header ctx) as [v|] eqn:Hv; [|reflexivity].
    destruct (String.eqb_spec v "aws:kms") as [->|_]; [|reflexivity].
    now elim Hctx.
  - intros who key ctx Hctx.
    unfold explicitly_denied. cbn [deny_statements filter resource_policy
      effect effect_eqb existsb app].
    unfold statement_applies, resolve_resources. cbn [resources].
    rewrite Hres.
    cbn [principals actions conditions existsb principal_matches].
    rewrite sse_condition. cbn [req_context put_object].
    rewrite Hctx. simpl. now rewrite !andb_false_r.
Qed.

Lemma deny_unless_kms_witness :
  exists self b,
    CdkPipelineStack [] "CdkPipelineStack" []
    = inr [("CdkPipelineStack", self)] /\
    get_bucket self "ArtifactBucket" = Some b /\
    explicitly_denied sample_env self b
      (put_object "arn:aws:iam::111122223333:user/dev"
         "arn:aws:s3:::my-bucket" "app.zip" [(sse_header, "AES256")])
    = true.
Proof.
  destruct (deny_unless_kms [] "CdkPipelineStack" [] eq_refl)
    as (self & b & deny & Hrun & Hb & _ & _ & _ & _ & _ & _ & _ & Hsem).
  exists self, b. split; [exact Hrun |]. split; [exact Hb |].
  assert (Harn : resolve sample_env self (bucket_arn "ArtifactBucket")
                 = Some "arn:aws:s3:::my-bucket").
  { vm_compute in Hrun. injection Hrun as <-. reflexivity. }
  destruct (Hsem sample_env _ Harn) as (_ & _ & Hdeny & _).
  apply Hdeny. discriminate.
Defined.

(** ** The inline grants *)

Lemma resolve_with_lit env self att (s : string) (t : tstr) :
  resolve_with env self att (Lit s :: t)
  = option_map (String.append s) (resolve_with env self att t).
Proof. simpl. now destruct (resolve_with env self att t). Qed.

Lemma resolve_with_ref env self att (p v : string) (t : tstr) :
  parameter_value env self p = Some v ->
  resolve_with env self att (Ref p :: t)
  = option_map (String.append v) (resolve_with env self att t).
Proof. intros H. simpl. rewrite H. now destruct (resolve_with env self att t). Qed.

Lemma resolve_bucket_arn env self (h : handle) (b : Bucket) (n : string)
    (t : tstr) :
  get_bucket self h = Some b ->
  resolve_name env self (bucket_name b) = Some n ->
  resolve env self (GetAtt h "Arn" :: t)
  = option_map (String.append (s3_arn (partition env) n))
      (resolve env self t).
Proof.
  intros Hb Hn. unfold resolve. simpl. unfold bucket_attribute. simpl.
  rewrite Hb, Hn. simpl. now destruct (resolve_with env self _ t).
Qed.

Lemma resolve_spelled_out env self (p n : string) :
  parameter_value env self p = Some n ->
  map_option (resolve env self)
    [[Lit "arn:aws:s3:::"; Ref p]; [Lit "arn:aws:s3:::"; Ref p; Lit "/*"]]
  = Some (bucket_and_keys "aws" n).
Proof.
  intros Hn. cbn [map_option]. unfold resolve.
  rewrite !resolve_with_lit, !(resolve_with_ref _ _ _ _ _ _ Hn).
  cbn [resolve_with resolve_token option_map].
  now rewrite append_empty_r.
Qed.

Lemma resolve_own_arn env self (h : handle) (b : Bucket) (n : string) :
  get_bucket self h = Some b ->
  resolve_name env self (bucket_name b) = Some n ->
  map_option (resolve env self) [[GetAtt h "Arn"]; [GetAtt h "Arn"; Lit "/*"]]
  = Some (bucket_and_keys (partition env) n).
Proof.
  intros Hb Hn. cbn [map_option].
  rewrite !(resolve_bucket_arn _ _ _ _ _ _ Hb Hn).
  change (resolve env self []) with (Some ""%string).
  change (resolve env self [Lit "/*"]) with (Some "/*"%string).
  cbn [option_map]. now rewrite append_empty_r.
Qed.

Lemma resolve_name_ref env self (p n : string) :
  parameter_value env self p = Some n ->
  resolve_name env self [Ref p] = Some n.
Proof.
  intros Hn. unfold resolve_name. rewrite (resolve_with_ref _ _ _ _ _ _ Hn).
  simpl. now rewrite append_empty_r.
Qed.

(** The stack has two roles, each with one inline grant: the build role's
    and the pipeline role's.  The pipeline role's grant is on the ARN of
    the artifact bucket, whatever the partition; the build role's grant is
    on the ARN of a bucket of that name spelled out in the "aws"
    partition.  The two resource sets coincide in the "aws" partition. *)
Theorem grants_name_the_artifact_bucket (scope : App) (id : string)
    (kw : list (string * string)) :
  assoc id scope = None ->
  exists self project pipeline build_role pipe_role bk g_build g_pipe,
    CdkPipelineStack scope id kw = inr (scope ++ [(id, self)]) /\
    get_project self "AppBuildProject" = Some project /\
    get_pipeline self "AppPipeline" = Some pipeline /\
    get_role self (role project) = Some build_role /\
    get_role self (pipeline_role pipeline) = Some pipe_role /\
    ids_of is_role self = [role project; pipeline_role pipeline] /\
    inline_statements build_role = [g_build] /\
    inline_statements pipe_role = [g_pipe] /\
    bucket (artifacts project) = artifact_bucket pipeline /\
    get_bucket self (artifact_bucket pipeline) = Some bk /\
    bucket_name bk = [Ref "S3BucketName"] /\
    forall env n,
      parameter_value env self "S3BucketName" = Some n ->
      resolve_name env self (bucket_name bk) = Some n /\
      resolve env self (bucket_arn (artifact_bucket pipeline))
      = Some (s3_arn (partition env) n) /\
      resolve_resources env self g_pipe
      = Some (bucket_and_keys (partition env) n) /\
      resolve_resources env self g_build = Some (bucket_and_keys "aws" n) /\
      (partition env = "aws" ->
       resolve_resources env self g_build = resolve_resources env self g_pipe).
Proof.
  intros Hfresh.
  do 8 eexists.
  split; [apply (CdkPipelineStack_fresh _ _ _ Hfresh) |].
  do 10 (split; [reflexivity |]).
  intros env n Hn.
  set (self := {| stack_kwargs := kw; children := topology |}) in *.
  pose proof (resolve_name_ref _ _ _ _ Hn) as Hname.
  assert (Hb : exists b, get_bucket self "ArtifactBucket" = Some b
                         /\ bucket_name b = [Ref "S3BucketName"])
    by (eexists; split; reflexivity).
  destruct Hb as (b & Hb & Hbn).
  assert (Hname' : resolve_name env self (bucket_name b) = Some n)
    by (rewrite Hbn; exact Hname).
  pose proof (resolve_own_arn _ _ _ _ _ Hb Hname') as Hpipe.
  pose proof (resolve_spelled_out _ _ _ _ Hn) as Hbuild.
  split; [exact Hname |].
  split.
  { unfold bucket_arn. cbn [artifact_bucket].
    rewrite (resolve_bucket_arn _ _ _ _ _ _ Hb Hname').
    change (resolve env self []) with (Some ""%string).
    cbn [option_map]. now rewrite append_empty_r. }
  split; [exact Hpipe |].
  split; [exact Hbuild |].
  intros Hpart.
  transitivity (Some (bucket_and_keys "aws" n)); [exact Hbuild |].
  symmetry. rewrite <- Hpart. exact Hpipe.
Qed.

Lemma grants_name_the_artifact_bucket_witness :
  exists self build_role pipe_role g_build g_pipe,
    CdkPipelineStack [] "CdkPipelineStack" []
    = inr [("CdkPipelineStack", self)] /\
    get_role self "AppBuildRole" = Some build_role /\
    get_role self "CodePipelineServiceRole" = Some pipe_role /\
    inline_statements build_role = [g_build] /\
    inline_statements pipe_role = [g_pipe] /\
    resolve_resources sample_env self g_build
    = Some ["arn:aws:s3:::my-bucket"; "arn:aws:s3:::my-bucket/*"] /\
    resolve_resources sample_env self g_pipe
    = Some ["arn:aws:s3:::my-bucket"; "arn:aws:s3:::my-bucket/*"].
Proof.
  destruct (grants_name_the_artifact_bucket [] "CdkPipelineStack" [] eq_refl)
    as (self & project & pipeline & build_role & pipe_role & bk & g_build
        & g_pipe & Hrun & Hproj & Hpipe & Hbr & Hpr & _ & Hgb & Hgp & _ & _
        & _ & Hsem).
  exists self, build_role, pipe_role, g_build, g_pipe.
  split; [exact Hrun |].
  vm_compute in Hrun. injection Hrun as <-.
  vm_compute in Hproj. injection Hproj as <-.
  vm_compute in Hpipe. injection Hpipe as <-.
  split; [exact Hbr |]. split; [exact Hpr |].
  split; [exact Hgb |]. split; [exact Hgp |].
  destruct (Hsem sample_env "my-bucket" eq_refl) as (_ & _ & Hp & Hb & _).
  split; [exact Hb | exact Hp].
Defined.

(** ** Parameters *)

(** C3, as stated, fails: the constructor is given no value for any of the
    three parameters, and yet it succeeds and returns the whole topology. *)
Lemma omitted_parameters_do_not_fail :
  (exists self,
      CdkPipelineStack [] "CdkPipelineStack" []
      = inr [("CdkPipelineStack", self)] /\
      length (resource_entities self) = 6) /\
  ~ (forall kw p,
        In p required_parameters -> assoc p kw = None ->
        exists e, CdkPipelineStack [] "CdkPipelineStack" kw = inl e).
Proof.
  split.
  - eexists. split; reflexivity.
  - intros H.
    destruct (H [] "S3BucketName") as [e He];
      [simpl; tauto | reflexivity | discriminate He].
Qed.

(** C3, amended.  Plan construction is given no value for any of the three
    parameters and checks for none.  Once the base constructor has set up
    the stack, the body declares the three parameters, each of type
    "String" and without default, and goes on to create the six resource
    entities; it reads nothing else of the stack.  With the default
    arguments (a fresh app, the id "CdkPipelineStack", no keyword
    argument) the whole construction succeeds with no value supplied. *)
Theorem body_asks_for_no_parameter_value (self0 : Stack) :
  children self0 = [] ->
  exists self,
    CdkPipelineStack_init self0 = inr (tt, self) /\
    stack_kwargs self = stack_kwargs self0 /\
    map param_id (parameters self) = required_parameters /\
    (forall p, In p (parameters self) ->
               param_type p = "String" /\ param_default p = None) /\
    resource_ids self
    = ["ArtifactBucket"; "JavaProjectRepository"; "AppBuildRole";
       "AppBuildProject"; "CodePipelineServiceRole"; "AppPipeline"] /\
    CdkPipelineStack [] "CdkPipelineStack" []
    = inr [("CdkPipelineStack",
            {| stack_kwargs := []; children := children self |})].
Proof.
  destruct self0 as [kw ch]. simpl. intros ->. eexists.
  split; [apply CdkPipelineStack_init_children |].
  do 2 (split; [reflexivity |]).
  split; [| split; reflexivity].
  intros p Hp. cbv in Hp.
  destruct Hp as [<- | [<- | [<- | []]]]; split; reflexivity.
Qed.

Lemma body_asks_for_no_parameter_value_witness :
  exists self,
    CdkPipelineStack_init {| stack_kwargs := []; children := [] |}
    = inr (tt, self) /\
    map param_id (parameters self) = required_parameters /\
    CdkPipelineStack [] "CdkPipelineStack" []
    = inr [("CdkPipelineStack", self)].
Proof.
  destruct (body_asks_for_no_parameter_value
              {| stack_kwargs := []; children := [] |} eq_refl)
    as (self & Hrun & Hkw & Hps & _ & _ & Hwhole).
  exists self. split; [exact Hrun |]. split; [exact Hps |].
  rewrite Hwhole. destruct self as [kw ch]. simpl in *. now subst kw.
Defined.

(** ** The pipeline *)

(** C4. The stack holds one pipeline; it has exactly two stages, "Source"
    then "Build"; the only artifact the Source stage outputs and the only
    artifact the Build stage takes as input carry the same name,
    "SourceOutput". *)
Theorem two_phases_source_then_build (scope : App) (id : string)
    (kw : list (string * string)) :
  assoc id scope = None ->
  exists self pipeline src bld,
    CdkPipelineStack scope id kw = inr (scope ++ [(id, self)]) /\
    ids_of is_pipeline self = ["AppPipeline"] /\
    get_pipeline self "AppPipeline" = Some pipeline /\
    stages pipeline = [src; bld] /\
    stage_name src = "Source" /\
    stage_name bld = "Build" /\
    stage_inputs src = [] /\
    stage_outputs src = ["SourceOutput"] /\
    stage_inputs bld = ["SourceOutput"] /\
    stage_outputs src = stage_inputs bld.
Proof.
  intros Hfresh. do 4 eexists.
  split; [apply (CdkPipelineStack_fresh _ _ _ Hfresh) |].
  repeat split; reflexivity.
Qed.

Lemma two_phases_source_then_build_witness :
  assoc "CdkPipelineStack" ([] : App) = None /\
  exists self pipeline,
    CdkPipelineStack [] "CdkPipelineStack" []
    = inr [("CdkPipelineStack", self)] /\
    get_pipeline self "AppPipeline" = Some pipeline /\
    map stage_name (stages pipeline) = ["Source"; "Build"].
Proof.
  split; [reflexivity |].
  destruct (two_phases_source_then_build [] "CdkPipelineStack" [] eq_refl)
    as (self & pipeline & src & bld & Hrun & _ & Hp & Hst & Hs & Hb & _).
  exists self, pipeline. split; [exact Hrun |]. split; [exact Hp |].
  rewrite Hst. simpl. now rewrite Hs, Hb.
Defined.

(** ** The roles *)

Ltac nodup_strings :=
  repeat (constructor; [cbn; intuition discriminate |]); constructor.

Example grant_read_write_writes :
  In "s3:PutObject" (actions (grant_read_write "ArtifactBucket"))
  /\ In "s3:DeleteObject*" (actions (grant_read_write "ArtifactBucket")).
Proof. split; simpl; tauto. Qed.




(** C6, as stated, fails: the role of the pipeline carries a third
    permission layer, the default policy to which creating the pipeline
    adds a grant on the artifact bucket, and that grant allows writes. *)
Lemma pipeline_role_carries_a_third_layer :
  exists self pipeline r,
    CdkPipelineStack [] "CdkPipelineStack" []
    = inr [("CdkPipelineStack", self)] /\
    get_pipeline self "AppPipeline" = Some pipeline /\
    get_role self (pipeline_role pipeline) = Some r /\
    default_policy r <> [] /\
    carried_layers r = 3 /\
    carried_layers r <> 2.
Proof.
  do 3 eexists.
  do 3 (split; [reflexivity |]).
  split; [discriminate |].
  split; [reflexivity | discriminate].
Qed.

(** C6, amended.  The pipeline runs under a role that carries three
    permission layers: the managed policy "AmazonS3ReadOnlyAccess"; one
    inline policy holding one ALLOW statement, whose actions are exactly
    GetObject, GetBucketAcl and GetBucketLocation, all of them reads (no
    PutObject among them), and whose resources are the artifact bucket and
    its object keys; and the role's default policy, which holds the
    read-write grant on the artifact bucket that creating the pipeline
    adds to it. *)
Theorem pipeline_role_three_layers (scope : App) (id : string)
    (kw : list (string * string)) :
  assoc id scope = None ->
  exists self pipeline r g bk,
    CdkPipelineStack scope id kw = inr (scope ++ [(id, self)]) /\
    get_pipeline self "AppPipeline" = Some pipeline /\
    get_role self (pipeline_role pipeline) = Some r /\
    assumed_by r = ServicePrincipal "codepipeline.amazonaws.com" /\
    managed_policies r
    = [from_aws_managed_policy_name "AmazonS3ReadOnlyAccess"] /\
    inline_policies r = [("ec2codedeploy", {| statements := [g] |})] /\
    effect g = ALLOW /\
    conditions g = [] /\
    same_actions (actions g)
      ["s3:GetObject"; "s3:GetBucketAcl"; "s3:GetBucketLocation"] /\
    forallb is_read_action (actions g) = true /\
    ~ In "s3:PutObject" (actions g) /\
    get_bucket self (artifact_bucket pipeline) = Some bk /\
    resources g
    = [bucket_arn (artifact_bucket pipeline);
       bucket_arn (artifact_bucket pipeline) ++ lit "/*"] /\
    In (grant_read_write (artifact_bucket pipeline)) (default_policy r) /\
    carried_layers r = 3 /\
    forall env n,
      resolve_name env self (bucket_name bk) = Some n ->
      resolve_resources env self g
      = Some (bucket_and_keys (partition env) n).
Proof.
  intros Hfresh. do 5 eexists.
  split; [apply (CdkPipelineStack_fresh _ _ _ Hfresh) |].
  do 7 (split; [reflexivity |]).
  split; [split; [nodup_strings | intros a; reflexivity] |].
  split; [reflexivity |].
  split.
  { cbn. intros [H | [H | [H | []]]]; discriminate H. }
  split; [reflexivity |].
  split; [reflexivity |].
  split; [now left |].
  split; [reflexivity |].
  intros env n Hn.
  refine (resolve_own_arn _ _ _ _ _ _ Hn). reflexivity.
Qed.

Lemma pipeline_role_three_layers_witness :
  exists self r g,
    CdkPipelineStack [] "CdkPipelineStack" []
    = inr [("CdkPipelineStack", self)] /\
    get_role self "CodePipelineServiceRole" = Some r /\
    inline_statements r = [g] /\
    carried_layers r = 3 /\
    resolve_resources sample_env self g
    = Some ["arn:aws:s3:::my-bucket"; "arn:aws:s3:::my-bucket/*"].
Proof.
  destruct (pipeline_role_three_layers [] "CdkPipelineStack" [] eq_refl)
    as (self & pipeline & r & g & bk & Hrun & Hpipe & Hr & _ & _ & Hin & _
        & _ & _ & _ & _ & Hbk & _ & _ & Hl & Hsem).
  exists self, r, g. split; [exact Hrun |].
  vm_compute in Hrun. injection Hrun as <-.
  vm_compute in Hpipe. injection Hpipe as <-.
  vm_compute in Hbk. injection Hbk as <-.
  split; [exact Hr |].
  split; [unfold inline_statements; rewrite Hin; reflexivity |].
  split; [exact Hl |].
  exact (Hsem sample_env "my-bucket" eq_refl).
Defined.

(** ** The build project *)

(** C7. The stack holds one repository, one bucket and one build project.
    The project's source is that repository (named by the [RepositoryName]
    parameter) and its artifacts go to that bucket (named by the
    [S3BucketName] parameter), packaged as a zip, with no build-id segment,
    under the empty path, encrypted. *)
Theorem build_project_binding (scope : App) (id : string)
    (kw : list (string * string)) :
  assoc id scope = None ->
  exists self project repo bk,
    CdkPipelineStack scope id kw = inr (scope ++ [(id, self)]) /\
    ids_of is_project self = ["AppBuildProject"] /\
    ids_of is_repository self = ["JavaProjectRepository"] /\
    ids_of is_bucket self = ["ArtifactBucket"] /\
    get_project self "AppBuildProject" = Some project /\
    source project = code_commit "JavaProjectRepository" /\
    get_repository self (source_repository (source project)) = Some repo /\
    repository_name repo = [Ref "RepositoryName"] /\
    bucket (artifacts project) = "ArtifactBucket" /\
    get_bucket self (bucket (artifacts project)) = Some bk /\
    bucket_name bk = [Ref "S3BucketName"] /\
    package_zip (artifacts project) = true /\
    include_build_id (artifacts project) = false /\
    path (artifacts project) = "" /\
    artifacts_encryption (artifacts project) = true.
Proof.
  intros Hfresh. do 4 eexists.
  split; [apply (CdkPipelineStack_fresh _ _ _ Hfresh) |].
  repeat split; reflexivity.
Qed.

Lemma build_project_binding_witness :
  assoc "CdkPipelineStack" ([] : App) = None /\
  exists self project,
    CdkPipelineStack [] "CdkPipelineStack" []
    = inr [("CdkPipelineStack", self)] /\
    get_project self "AppBuildProject" = Some project /\
    path (artifacts project) = "" /\
    package_zip (artifacts project) = true.
Proof.
  split; [reflexivity |].
  destruct (build_project_binding [] "CdkPipelineStack" [] eq_refl)
    as (self & project & repo & bk & Hrun & _ & _ & _ & Hp & _ & _ & _ & _
        & _ & _ & Hzip & _ & Hpath & _).
  exists self, project.
  split; [exact Hrun |]. split; [exact Hp |]. split; [exact Hpath | exact Hzip].
Defined.

(** C10. The pipeline's artifact store, the build project's artifact
    output and the bucket whose policy carries the DENY statement are one
    and the same construct, the only bucket of the stack; the DENY
    statement's resource is built from that bucket's own ARN.  The Build
    stage invokes the build project, and the one artifact it outputs has
    the name that the project gives as its artifact identifier,
    "BuildOutput". *)
Theorem one_bucket_one_build_output (scope : App) (id : string)
    (kw : list (string * string)) :
  assoc id scope = None ->
  exists self project pipeline bk deny src bld,
    CdkPipelineStack scope id kw = inr (scope ++ [(id, self)]) /\
    get_project self "AppBuildProject" = Some project /\
    get_pipeline self "AppPipeline" = Some pipeline /\
    artifact_bucket pipeline = bucket (artifacts project) /\
    ids_of is_bucket self = [artifact_bucket pipeline] /\
    get_bucket self (artifact_bucket pipeline) = Some bk /\
    deny_statements bk = [deny] /\
    resources deny = [bucket_arn (artifact_bucket pipeline) ++ lit "/*"] /\
    stages pipeline = [src; bld] /\
    stage_name bld = "Build" /\
    stage_actions bld
    = [CodeBuildAction "BuildAction" "AppBuildProject"
         {| artifact_name := "SourceOutput" |}
         [{| artifact_name := identifier (artifacts project) |}]] /\
    stage_outputs bld = [identifier (artifacts project)] /\
    identifier (artifacts project) = "BuildOutput".
Proof.
  intros Hfresh. do 7 eexists.
  split; [apply (CdkPipelineStack_fresh _ _ _ Hfresh) |].
  repeat split; reflexivity.
Qed.

Lemma one_bucket_one_build_output_witness :
  assoc "CdkPipelineStack" ([] : App) = None /\
  exists self project pipeline,
    CdkPipelineStack [] "CdkPipelineStack" []
    = inr [("CdkPipelineStack", self)] /\
    get_project self "AppBuildProject" = Some project /\
    get_pipeline self "AppPipeline" = Some pipeline /\
    artifact_bucket pipeline = bucket (artifacts project) /\
    identifier (artifacts project) = "BuildOutput".
Proof.
  split; [reflexivity |].
  destruct (one_bucket_one_build_output [] "CdkPipelineStack" [] eq_refl)
    as (self & project & pipeline & bk & deny & src & bld & Hrun & Hp & Hpi
        & Hsame & _ & _ & _ & _ & _ & _ & _ & _ & Hid).
  exists self, project, pipeline.
  repeat (split; [eassumption |]). exact Hid.
Defined.

(** ** Parameters that no resource mentions *)

Lemma existsb_false {A : Type} (f : A -> bool) (l : list A) :
  existsb f l = false -> forall x, In x l -> f x = false.
Proof.
  intros H x Hx. destruct (f x) eqn:Hfx; [| reflexivity].
  rewrite <- H. symmetry. apply existsb_exists. now exists x.
Qed.

Lemma assoc_In {A : Type} (k : string) (v : A) (l : list (string * A)) :
  assoc k l = Some v -> In (k, v) l.
Proof.
  induction l as [|[k' v'] l IH]; simpl; [discriminate |].
  destruct (String.eqb_spec k k') as [->|_].
  - intros [= ->]. now left.
  - intros H. right. now apply IH.
Qed.

Lemma map_option_ext {A B : Type} (f g : A -> option B) (l : list A) :
  (forall x, In x l -> f x = g x) -> map_option f l = map_option g l.
Proof.
  induction l as [|a l IH]; intros H; simpl; [reflexivity |].
  rewrite (H a (or_introl eq_refl)), IH; [reflexivity |].
  intros x Hx. apply H. now right.
Qed.

Section Agreement.

Variable p : string.
Variables e1 e2 : Env.
Variable self : Stack.
Hypothesis Hagree : agree_except p e1 e2.

Lemma parameter_value_agree (q : string) :
  q <> p -> parameter_value e1 self q = parameter_value e2 self q.
Proof.
  intros Hq. unfold parameter_value.
  destruct Hagree as [_ H]. now rewrite (H q Hq).
Qed.

Lemma resolve_with_agree (att1 att2 : string -> string -> option string)
    (t : tstr) :
  (forall h a, att1 h a = att2 h a) ->
  mentions p t = false ->
  resolve_with e1 self att1 t = resolve_with e2 self att2 t.
Proof.
  intros Hatt. induction t as [|tok t IH]; intros Hm; [reflexivity |].
  simpl in Hm. apply orb_false_iff in Hm as [Htok Ht].
  simpl. rewrite (IH Ht).
  destruct tok as [s | q | h a]; simpl.
  - reflexivity.
  - rewrite parameter_value_agree; [reflexivity |].
    intros ->. now rewrite String.eqb_refl in Htok.
  - now rewrite Hatt.
Qed.

Hypothesis Hclean : stack_mentions p self = false.

Lemma bucket_name_clean (h : handle) (b : Bucket) :
  get_bucket self h = Some b -> mentions p (bucket_name b) = false.
Proof.
  unfold get_bucket. intros Hb.
  destruct (assoc h (children self)) as [[| b' | | | |]|] eqn:Hh;
    try discriminate.
  injection Hb as ->.
  assert (Hin : In (h, CBucket b) (resource_entities self)).
  { apply filter_In. split; [now apply assoc_In | reflexivity]. }
  pose proof (existsb_false _ _ Hclean _ Hin) as Hc.
  simpl in Hc. now apply orb_false_iff in Hc as [Hc _].
Qed.

Lemma bucket_attribute_agree (h a : string) :
  bucket_attribute e1 self h a = bucket_attribute e2 self h a.
Proof.
  unfold bucket_attribute.
  destruct (String.eqb a "Arn"); [| reflexivity].
  destruct (get_bucket self h) as [b|] eqn:Hb; [| reflexivity].
  destruct Hagree as [-> _]. unfold resolve_name.
  rewrite (resolve_with_agree (fun _ _ => None) (fun _ _ => None));
    [reflexivity | reflexivity | exact (bucket_name_clean _ _ Hb)].
Qed.

Lemma deploy_statement_agree (s : PolicyStatement) :
  statement_mentions p s = false ->
  deploy_statement e1 self s = deploy_statement e2 self s.
Proof.
  intros Hs. unfold deploy_statement, resolve_resources.
  rewrite (map_option_ext (resolve e1 self) (resolve e2 self));
    [reflexivity |].
  intros t Ht. apply resolve_with_agree.
  - exact bucket_attribute_agree.
  - exact (existsb_false _ _ Hs _ Ht).
Qed.

Lemma deploy_construct_agree (c : Construct) :
  construct_mentions p c = false ->
  deploy_construct e1 self c = deploy_construct e2 self c.
Proof.
  destruct c as [d | b | r | r | pr | pl]; simpl; intros Hc;
    try reflexivity.
  - apply orb_false_iff in Hc as [Hn Hpol]. unfold resolve_name.
    rewrite (resolve_with_agree (fun _ _ => None) (fun _ _ => None)
               (bucket_name b) (fun _ _ => eq_refl) Hn).
    rewrite (map_option_ext (deploy_statement e1 self)
               (deploy_statement e2 self)); [reflexivity |].
    intros s Hs. apply deploy_statement_agree.
    exact (existsb_false _ _ Hpol _ Hs).
  - unfold resolve_name.
    now rewrite (resolve_with_agree (fun _ _ => None) (fun _ _ => None)
                   (repository_name r) (fun _ _ => eq_refl) Hc).
  - apply orb_false_iff in Hc as [Hc Hdef].
    rewrite (map_option_ext (deploy_document e1 self)
               (deploy_document e2 self)).
    + rewrite (map_option_ext (deploy_statement e1 self)
                 (deploy_statement e2 self)); [reflexivity |].
      intros s Hs. apply deploy_statement_agree.
      exact (existsb_false _ _ Hdef _ Hs).
    + intros kd Hkd. unfold deploy_document.
      rewrite (map_option_ext (deploy_statement e1 self)
                 (deploy_statement e2 self)); [reflexivity |].
      intros s Hs. apply deploy_statement_agree.
      apply (existsb_false _ _ Hc). unfold inline_statements.
      apply in_flat_map. now exists kd.
Qed.

Lemma deploy_resources_agree :
  deploy_resources e1 self = deploy_resources e2 self.
Proof.
  unfold deploy_resources. apply map_option_ext.
  intros kc Hkc. unfold deploy_child.
  now rewrite (deploy_construct_agree _ (existsb_false _ _ Hclean _ Hkc)).
Qed.

End Agreement.

(** C9. The [projectUrl] parameter is declared and never used: no resource
    entity of the stack mentions it, so two deployments of the stack that
    differ at most in the value given for [projectUrl] (supplied or not)
    resolve every resource declaration, grant and cross-reference to the
    same thing.  The other two parameters are used. *)
Theorem project_url_not_operational (scope : App) (id : string)
    (kw : list (string * string)) :
  assoc id scope = None ->
  exists self,
    CdkPipelineStack scope id kw = inr (scope ++ [(id, self)]) /\
    In "projectUrl" (map param_id (parameters self)) /\
    stack_mentions "projectUrl" self = false /\
    stack_mentions "S3BucketName" self = true /\
    stack_mentions "RepositoryName" self = true /\
    forall e1 e2,
      agree_except "projectUrl" e1 e2 ->
      deploy_resources e1 self = deploy_resources e2 self.
Proof.
  intros Hfresh. eexists.
  split; [apply (CdkPipelineStack_fresh _ _ _ Hfresh) |].
  split; [cbn; tauto |].
  do 3 (split; [reflexivity |]).
  intros e1 e2 Hagree.
  now apply (deploy_resources_agree "projectUrl").
Qed.

Lemma project_url_not_operational_witness :
  exists self rs,
    CdkPipelineStack [] "CdkPipelineStack" []
    = inr [("CdkPipelineStack", self)] /\
    deploy_resources sample_env self = Some rs /\
    deploy_resources
      {| partition := "aws";
         parameter_values :=
           [("S3BucketName", "my-bucket"); ("RepositoryName", "my-repo")] |}
      self = Some rs.
Proof.
  destruct (project_url_not_operational [] "CdkPipelineStack" [] eq_refl)
    as (self & Hrun & _ & _ & _ & _ & Hsame).
  assert (Hagree : agree_except "projectUrl" sample_env
            {| partition := "aws";
               parameter_values :=
                 [("S3BucketName", "my-bucket");
                  ("RepositoryName", "my-repo")] |}).
  { split; [reflexivity |]. intros q Hq. simpl.
    destruct (String.eqb_spec q "projectUrl") as [-> | _];
      [now elim Hq | reflexivity]. }
  pose proof (Hsame _ _ Hagree) as Hs.
  exists self. eexists. split; [exact Hrun |].
  assert (E : deploy_resources sample_env self
              = deploy_resources sample_env
                  {| stack_kwargs := []; children := topology |}).
  { vm_compute in Hrun. injection Hrun as <-. reflexivity. }
  split; [| rewrite <- Hs]; rewrite E; reflexivity.
Defined.

(** * Further properties of the constructor *)

(** ** Patterns without wildcard *)

Lemma glob_refl (a : string) : glob a a = true.
Proof.
  rewrite <- (append_empty_r a). now apply glob_prefix.
Qed.

Lemma wildcard_free_app (a b : string) :
  wildcard_free (a ++ b) = wildcard_free a && wildcard_free b.
Proof.
  induction a as [|c a IH]; simpl; [reflexivity |].
  now rewrite IH, andb_assoc.
Qed.

Lemma glob_literal (a p s : string) :
  wildcard_free a = true ->
  glob (a ++ p) s = true ->
  exists s', s = (a ++ s')%string /\ glob p s' = true.
Proof.
  revert s. induction a as [|c a IH]; intros s Hfree Hglob.
  - now exists s.
  - simpl in Hfree.
    apply andb_true_iff in Hfree as [Hc Hfree].
    apply andb_true_iff in Hc as [Hstar Hq].
    apply negb_true_iff in Hstar, Hq.
    change (glob (String c (a ++ p)) s = true) in Hglob.
    simpl in Hglob. rewrite Hstar in Hglob.
    destruct s as [|d s]; [discriminate |].
    rewrite Hq in Hglob. simpl in Hglob.
    apply andb_true_iff in Hglob as [Hcd Hglob].
    apply Ascii.eqb_eq in Hcd. subst d.
    destruct (IH s Hfree Hglob) as (s' & -> & Hs').
    now exists s'.
Qed.

Lemma glob_exact (a s : string) :
  wildcard_free a = true -> (glob a s = true <-> s = a).
Proof.
  intros Hfree. split.
  - intros H. rewrite <- (append_empty_r a) in H.
    destruct (glob_literal _ _ _ Hfree H) as (s' & -> & Hs').
    destruct s'; [apply append_empty_r | discriminate].
  - intros ->. apply glob_refl.
Qed.

Lemma glob_keys (arn r : string) :
  wildcard_free arn = true ->
  (glob (arn ++ "/*") r = true <-> exists key, r = object_arn arn key).
Proof.
  intros Hfree. split.
  - intros H. destruct (glob_literal _ _ _ Hfree H) as (s' & -> & Hs').
    destruct s' as [|d key]; [discriminate |].
    change (Ascii.eqb "/" d && glob "*" key = true) in Hs'.
    apply andb_true_iff in Hs' as [Hd _].
    apply Ascii.eqb_eq in Hd. subst d. now exists key.
  - intros [key ->]. apply glob_under.
Qed.

Lemma existsb_glob_exact (l : list string) (x : string) :
  forallb wildcard_free l = true ->
  (existsb (fun a => glob a x) l = true <-> In x l).
Proof.
  induction l as [|a l IH]; simpl; intros Hfree.
  - split; [discriminate | tauto].
  - apply andb_true_iff in Hfree as [Ha Hl].
    rewrite orb_true_iff, (glob_exact a x Ha), (IH Hl).
    split; intros [H | H]; auto.
Qed.

Lemma glob_bucket_and_keys (arn r : string) :
  wildcard_free arn = true ->
  (existsb (fun p => glob p r) [arn; (arn ++ "/*")%string] = true
   <-> in_bucket arn r).
Proof.
  intros Hfree. unfold in_bucket. simpl.
  rewrite orb_false_r, orb_true_iff, (glob_exact arn r Hfree),
    (glob_keys arn r Hfree).
  reflexivity.
Qed.

Lemma wildcard_free_s3_arn (part n : string) :
  wildcard_free part = true -> wildcard_free n = true ->
  wildcard_free (s3_arn part n) = true.
Proof.
  intros Hp Hn. unfold s3_arn.
  now rewrite !wildcard_free_app, Hp, Hn.
Qed.

(** ** Which requests the statements match *)

Lemma kms_header_spec (ctx : list (string * string)) :
  kms_header ctx = false <-> assoc sse_header ctx <> Some "aws:kms".
Proof.
  unfold kms_header. destruct (assoc sse_header ctx) as [v|].
  - destruct (String.eqb_spec v "aws:kms") as [-> | Hv].
    + split; [discriminate | intros H; now elim H].
    + split; [intros _ [= E]; now elim Hv | reflexivity].
  - split; [discriminate | reflexivity].
Qed.

Section OneStatement.

Variable env : Env.
Variable self : Stack.
Variable s : PolicyStatement.
Variable arn : string.

Lemma deny_applies_put (who key : string) (ctx : list (string * string)) :
  resolve_resources env self s = Some [(arn ++ "/*")%string] ->
  principals s = [AnyPrincipal] ->
  actions s = ["s3:PutObject"] ->
  conditions s = [("StringNotEquals", [(sse_header, "aws:kms")])] ->
  statement_applies env self s (put_object who arn key ctx)
  = negb (kms_header ctx).
Proof.
  intros Hres Hp Ha Hc. unfold statement_applies.
  rewrite Hres, Hp, Ha, Hc, sse_condition.
  cbn [existsb principal_matches put_object req_action req_resource
       req_context].
  now rewrite glob_under, glob_refl.
Qed.

Lemma deny_applies_iff (req : Request) :
  resolve_resources env self s = Some [(arn ++ "/*")%string] ->
  principals s = [AnyPrincipal] ->
  actions s = ["s3:PutObject"] ->
  conditions s = [("StringNotEquals", [(sse_header, "aws:kms")])] ->
  wildcard_free arn = true ->
  (statement_applies env self s req = true <->
   req_action req = "s3:PutObject" /\
   (exists key, req_resource req = object_arn arn key) /\
   assoc sse_header (req_context req) <> Some "aws:kms").
Proof.
  intros Hres Hp Ha Hc Hfree. unfold statement_applies.
  rewrite Hres, Hp, Ha, Hc, sse_condition.
  cbn [existsb principal_matches].
  rewrite !orb_false_r, !andb_true_iff, negb_true_iff.
  fold (kms_header (req_context req)).
  rewrite kms_header_spec, (glob_keys arn _ Hfree),
    (glob_exact "s3:PutObject" _ eq_refl).
  tauto.
Qed.

Lemma allow_matches_iff (req : Request) :
  resolve_resources env self s = Some [arn; (arn ++ "/*")%string] ->
  conditions s = [] ->
  forallb wildcard_free (actions s) = true ->
  wildcard_free arn = true ->
  (statement_matches env self s req = true <->
   In (req_action req) (actions s) /\ in_bucket arn (req_resource req)).
Proof.
  intros Hres Hc Hacts Hfree. unfold statement_matches.
  rewrite Hres, Hc. cbn [conditions_hold forallb].
  rewrite andb_true_r, andb_true_iff,
    (existsb_glob_exact _ _ Hacts), (glob_bucket_and_keys _ _ Hfree).
  reflexivity.
Qed.

End OneStatement.

Lemma inline_allows_single env self (r : Role) (g : PolicyStatement)
    (req : Request) :
  inline_statements r = [g] ->
  effect g = ALLOW ->
  inline_allows env self r req = statement_matches env self g req.
Proof.
  intros Hg He. unfold inline_allows. rewrite Hg. simpl.
  now rewrite He, orb_false_r.
Qed.

(** C2.  Outside the "aws" partition the build role's inline grant does not
    resolve to the artifact bucket.  Deployed in "aws-cn" with the bucket
    name "my-bucket", the bucket that the build output and the pipeline's
    store refer to has the ARN arn:aws-cn:s3:::my-bucket, and the pipeline
    role's grant (lines 89-90, built from [bucket_arn]) resolves to it;
    the build role's grant (lines 58-59, built from the literal
    "arn:aws:s3:::") resolves to arn:aws:s3:::my-bucket, another storage
    location: it matches no request on the artifact bucket or on one of
    its keys, whatever the action. *)
Theorem build_grant_misses_bucket_outside_aws :
  exists self project pipeline build_role pipe_role g_build g_pipe,
    CdkPipelineStack [] "CdkPipelineStack" []
    = inr [("CdkPipelineStack", self)] /\
    get_project self "AppBuildProject" = Some project /\
    get_pipeline self "AppPipeline" = Some pipeline /\
    bucket (artifacts project) = artifact_bucket pipeline /\
    get_role self (role project) = Some build_role /\
    get_role self (pipeline_role pipeline) = Some pipe_role /\
    inline_statements build_role = [g_build] /\
    inline_statements pipe_role = [g_pipe] /\
    resolve aws_cn_env self (bucket_arn (artifact_bucket pipeline))
    = Some "arn:aws-cn:s3:::my-bucket" /\
    resolve_resources aws_cn_env self g_pipe
    = Some ["arn:aws-cn:s3:::my-bucket"; "arn:aws-cn:s3:::my-bucket/*"] /\
    resolve_resources aws_cn_env self g_build
    = Some ["arn:aws:s3:::my-bucket"; "arn:aws:s3:::my-bucket/*"] /\
    resolve_resources aws_cn_env self g_build
    <> resolve_resources aws_cn_env self g_pipe /\
    (forall who action ctx,
        inline_allows aws_cn_env self build_role
          {| req_principal := who; req_action := action;
             req_resource := "arn:aws-cn:s3:::my-bucket";
             req_context := ctx |} = false) /\
    (forall who action key ctx,
        inline_allows aws_cn_env self build_role
          {| req_principal := who; req_action := action;
             req_resource := object_arn "arn:aws-cn:s3:::my-bucket" key;
             req_context := ctx |} = false) /\
    inline_allows aws_cn_env self pipe_role
      {| req_principal := "pipeline"; req_action := "s3:GetObject";
         req_resource := object_arn "arn:aws-cn:s3:::my-bucket" "app.zip";
         req_context := [] |} = true.
Proof.
  do 7 eexists.
  do 11 (split; [reflexivity |]).
  split; [discriminate |].
  assert (Hout : forall req,
             inline_allows aws_cn_env
               {| stack_kwargs := []; children := topology |}
               {| assumed_by := ServicePrincipal "codebuild.amazonaws.com";
                  managed_policies :=
                    [from_aws_managed_policy_name "AmazonS3ReadOnlyAccess"];
                  inline_policies :=
                    [("CodeBuildAccess",
                      {| statements :=
                           [PolicyStatement_default
                              ["s3:PutObject"; "s3:GetObject";
                               "s3:GetObjectVersion"; "s3:GetBucketAcl";
                               "s3:GetBucketLocation"]
                              [lit "arn:aws:s3:::" ++ [Ref "S3BucketName"];
                               lit "arn:aws:s3:::" ++ [Ref "S3BucketName"]
                                 ++ lit "/*"]] |})];
                  default_policy := [grant_read_write "ArtifactBucket"] |}
               req = true ->
             in_bucket "arn:aws:s3:::my-bucket" (req_resource req)).
  { intros req. erewrite inline_allows_single by reflexivity.
    intros H.
    apply (allow_matches_iff aws_cn_env _ _ "arn:aws:s3:::my-bucket") in H;
      [exact (proj2 H) | reflexivity ..]. }
  split; [| split; [| reflexivity]].
  - intros who action ctx.
    match goal with |- ?x = false => destruct x eqn:E end; [| reflexivity].
    apply Hout in E. destruct E as [E | [key E]]; discriminate E.
  - intros who action key ctx.
    match goal with |- ?x = false => destruct x eqn:E end; [| reflexivity].
    apply Hout in E. destruct E as [E | [key' E]]; discriminate E.
Qed.

(** X1. The bucket policy denies exactly the PutObject requests on an
    object key of the artifact bucket that do not carry the "aws:kms"
    encryption header: it never denies another action, a request on the
    bucket itself or on another bucket, or a write made with that header.
    (The bucket's ARN is taken without wildcard characters.) *)
Theorem denied_requests_exactly (scope : App) (id : string)
    (kw : list (string * string)) :
  assoc id scope = None ->
  exists self b,
    CdkPipelineStack scope id kw = inr (scope ++ [(id, self)]) /\
    get_bucket self "ArtifactBucket" = Some b /\
    forall env arn req,
      resolve env self (bucket_arn "ArtifactBucket") = Some arn ->
      wildcard_free arn = true ->
      (explicitly_denied env self b req = true <->
       req_action req = "s3:PutObject" /\
       (exists key, req_resource req = object_arn arn key) /\
       assoc sse_header (req_context req) <> Some "aws:kms").
Proof.
  intros Hfresh. do 2 eexists.
  split; [apply (CdkPipelineStack_fresh _ _ _ Hfresh) |].
  split; [reflexivity |].
  intros env arn req Harn Hfree.
  unfold explicitly_denied.
  cbn [deny_statements filter resource_policy effect effect_eqb existsb app].
  rewrite orb_false_r.
  apply deny_applies_iff; try reflexivity; [| exact Hfree].
  unfold resolve_resources. cbn [resources map_option].
  now rewrite (resolve_suffix _ _ _ "/*" _ Harn).
Qed.

Lemma denied_requests_exactly_witness :
  exists self b,
    CdkPipelineStack [] "CdkPipelineStack" []
    = inr [("CdkPipelineStack", self)] /\
    get_bucket self "ArtifactBucket" = Some b /\
    explicitly_denied sample_env self b
      {| req_principal := "arn:aws:iam::111122223333:role/build";
         req_action := "s3:GetObject";
         req_resource := "arn:aws:s3:::my-bucket/app.zip";
         req_context := [] |}
    <> true.
Proof.
  destruct (denied_requests_exactly [] "CdkPipelineStack" [] eq_refl)
    as (self & b & Hrun & Hb & Hsem).
  exists self, b. split; [exact Hrun |]. split; [exact Hb |].
  assert (Harn : resolve sample_env self (bucket_arn "ArtifactBucket")
                 = Some "arn:aws:s3:::my-bucket").
  { vm_compute in Hrun. injection Hrun as <-. reflexivity. }
  intros Hdenied.
  apply (Hsem sample_env _ _ Harn eq_refl) in Hdenied.
  destruct Hdenied as (Hact & _). discriminate Hact.
Defined.

(** X2. The inline grant of the build role matches a request exactly when
    its action is one of the five listed and its resource is the bucket
    arn:aws:s3:::<S3BucketName> or one of that bucket's object keys; the
    inline grant of the pipeline role matches exactly when the action is
    one of the three listed and the resource is the artifact bucket or one
    of its keys.  Neither inline grant reaches anything outside that
    bucket.  (Name and partition are taken without wildcard characters.) *)
Theorem inline_grants_confined (scope : App) (id : string)
    (kw : list (string * string)) :
  assoc id scope = None ->
  exists self build_role pipe_role,
    CdkPipelineStack scope id kw = inr (scope ++ [(id, self)]) /\
    get_role self "AppBuildRole" = Some build_role /\
    get_role self "CodePipelineServiceRole" = Some pipe_role /\
    forall env n req,
      parameter_value env self "S3BucketName" = Some n ->
      wildcard_free n = true ->
      wildcard_free (partition env) = true ->
      (inline_allows env self build_role req = true <->
       In (req_action req)
         ["s3:PutObject"; "s3:GetObject"; "s3:GetObjectVersion";
          "s3:GetBucketAcl"; "s3:GetBucketLocation"] /\
       in_bucket (s3_arn "aws" n) (req_resource req)) /\
      (inline_allows env self pipe_role req = true <->
       In (req_action req)
         ["s3:GetObject"; "s3:GetBucketAcl"; "s3:GetBucketLocation"] /\
       in_bucket (s3_arn (partition env) n) (req_resource req)).
Proof.
  intros Hfresh. do 3 eexists.
  split; [apply (CdkPipelineStack_fresh _ _ _ Hfresh) |].
  do 2 (split; [reflexivity |]).
  intros env n req Hn Hfn Hfp.
  split.
  - erewrite inline_allows_single by reflexivity.
    apply allow_matches_iff; try reflexivity.
    + exact (resolve_spelled_out _ _ _ _ Hn).
    + now apply wildcard_free_s3_arn.
  - erewrite inline_allows_single by reflexivity.
    apply allow_matches_iff; try reflexivity.
    + refine (resolve_own_arn _ _ _ _ _ _ _); [reflexivity |].
      exact (resolve_name_ref _ _ _ _ Hn).
    + now apply wildcard_free_s3_arn.
Qed.

Lemma inline_grants_confined_witness :
  exists self build_role,
    CdkPipelineStack [] "CdkPipelineStack" []
    = inr [("CdkPipelineStack", self)] /\
    get_role self "AppBuildRole" = Some build_role /\
    inline_allows sample_env self build_role
      {| req_principal := "build";
         req_action := "s3:GetObject";
         req_resource := "arn:aws:s3:::other-bucket/app.zip";
         req_context := [] |}
    <> true.
Proof.
  destruct (inline_grants_confined [] "CdkPipelineStack" [] eq_refl)
    as (self & build_role & pipe_role & Hrun & Hb & _ & Hsem).
  exists self, build_role. split; [exact Hrun |]. split; [exact Hb |].
  assert (Hn : parameter_value sample_env self "S3BucketName"
               = Some "my-bucket").
  { vm_compute in Hrun. injection Hrun as <-. reflexivity. }
  destruct (Hsem sample_env "my-bucket"
              {| req_principal := "build";
                 req_action := "s3:GetObject";
                 req_resource := "arn:aws:s3:::other-bucket/app.zip";
                 req_context := [] |} Hn eq_refl eq_refl) as (Hbuild & _).
  intros Hallowed. apply Hbuild in Hallowed.
  destruct Hallowed as (_ & [Hr | [key Hr]]); discriminate Hr.
Defined.

(** X3. In the "aws" partition, a PutObject of the build role on any key
    of the artifact bucket is matched by the role's inline grant, and the
    bucket policy denies it unless the request carries the "aws:kms"
    header; the pipeline role's inline grant never matches a PutObject. *)
Theorem build_writes_need_kms_header (scope : App) (id : string)
    (kw : list (string * string)) :
  assoc id scope = None ->
  exists self build_role pipe_role b,
    CdkPipelineStack scope id kw = inr (scope ++ [(id, self)]) /\
    get_role self "AppBuildRole" = Some build_role /\
    get_role self "CodePipelineServiceRole" = Some pipe_role /\
    get_bucket self "ArtifactBucket" = Some b /\
    (forall env who res ctx,
        inline_allows env self pipe_role
          {| req_principal := who; req_action := "s3:PutObject";
             req_resource := res; req_context := ctx |} = false) /\
    forall env n who key ctx,
      parameter_value env self "S3BucketName" = Some n ->
      partition env = "aws" ->
      inline_allows env self build_role
        (put_object who (s3_arn "aws" n) key ctx) = true /\
      explicitly_denied env self b (put_object who (s3_arn "aws" n) key ctx)
      = negb (kms_header ctx).
Proof.
  intros Hfresh. do 4 eexists.
  split; [apply (CdkPipelineStack_fresh _ _ _ Hfresh) |].
  do 3 (split; [reflexivity |]).
  split.
  - intros env who res ctx.
    erewrite inline_allows_single by reflexivity.
    unfold statement_matches.
    now destruct (resolve_resources env _ _).
  - intros env n who key ctx Hn Hpart. split.
    + erewrite inline_allows_single by reflexivity.
      unfold statement_matches.
      change (resolve_resources env ?s ?g)
        with (map_option (resolve env s)
                [[Lit "arn:aws:s3:::"; Ref "S3BucketName"];
                 [Lit "arn:aws:s3:::"; Ref "S3BucketName"; Lit "/*"]]).
      rewrite (resolve_spelled_out _ _ _ _ Hn).
      cbn [actions conditions PolicyStatement_default conditions_hold forallb
           existsb put_object req_action req_resource bucket_and_keys].
      now rewrite glob_under, glob_refl, orb_true_r.
    + unfold explicitly_denied.
      cbn [deny_statements filter resource_policy effect effect_eqb existsb
           app].
      rewrite orb_false_r.
      apply deny_applies_put; try reflexivity.
      unfold resolve_resources. cbn [resources map_option].
      erewrite resolve_suffix; [reflexivity |].
      unfold bucket_arn.
      erewrite resolve_bucket_arn;
        [| reflexivity | exact (resolve_name_ref _ _ _ _ Hn)].
      rewrite Hpart. change (resolve env ?s []) with (Some ""%string).
      cbn [option_map]. now rewrite append_empty_r.
Qed.

Lemma build_writes_need_kms_header_witness :
  exists self build_role b,
    CdkPipelineStack [] "CdkPipelineStack" []
    = inr [("CdkPipelineStack", self)] /\
    get_role self "AppBuildRole" = Some build_role /\
    get_bucket self "ArtifactBucket" = Some b /\
    inline_allows sample_env self build_role
      (put_object "build" "arn:aws:s3:::my-bucket" "app.zip" []) = true /\
    explicitly_denied sample_env self b
      (put_object "build" "arn:aws:s3:::my-bucket" "app.zip" []) = true.
Proof.
  destruct (build_writes_need_kms_header [] "CdkPipelineStack" [] eq_refl)
    as (self & build_role & pipe_role & b & Hrun & Hbr & _ & Hb & _ & Hsem).
  exists self, build_role, b.
  split; [exact Hrun |]. split; [exact Hbr |]. split; [exact Hb |].
  assert (Hn : parameter_value sample_env self "S3BucketName"
               = Some "my-bucket").
  { vm_compute in Hrun. injection Hrun as <-. reflexivity. }
  exact (Hsem sample_env "my-bucket" "build" "app.zip" [] Hn eq_refl).
Defined.

(** ** Cross-references *)

Lemma has_kind_role (self : Stack) (h : handle) :
  has_kind is_role self h = true -> exists r, get_role self h = Some r.
Proof.
  unfold has_kind, get_role.
  destruct (assoc h (children self)) as [[| | | r | |]|]; try discriminate.
  now exists r.
Qed.

Lemma has_kind_bucket (self : Stack) (h : handle) :
  has_kind is_bucket self h = true -> exists b, get_bucket self h = Some b.
Proof.
  unfold has_kind, get_bucket.
  destruct (assoc h (children self)) as [[| b | | | |]|]; try discriminate.
  now exists b.
Qed.

Lemma has_kind_repository (self : Stack) (h : handle) :
  has_kind is_repository self h = true ->
  exists r, get_repository self h = Some r.
Proof.
  unfold has_kind, get_repository.
  destruct (assoc h (children self)) as [[| | r | | |]|]; try discriminate.
  now exists r.
Qed.

Lemma has_kind_project (self : Stack) (h : handle) :
  has_kind is_project self h = true -> exists p, get_project self h = Some p.
Proof.
  unfold has_kind, get_project.
  destruct (assoc h (children self)) as [[| | | | p |]|]; try discriminate.
  now exists p.
Qed.

Lemma well_linked_child (self : Stack) (h : handle) (c : Construct) :
  well_linked self = true ->
  assoc h (children self) = Some c ->
  construct_linked self c = true.
Proof.
  intros Hwl Hc. unfold well_linked in Hwl.
  rewrite forallb_forall in Hwl.
  exact (Hwl (h, c) (assoc_In _ _ _ Hc)).
Qed.

(** In a well-linked stack a project finds its role, its repository and
    its bucket. *)
Lemma well_linked_project (self : Stack) (h : handle) (p : Project) :
  well_linked self = true ->
  get_project self h = Some p ->
  (exists r, get_role self (role p) = Some r) /\
  (exists repo,
      get_repository self (source_repository (source p)) = Some repo) /\
  (exists bk, get_bucket self (bucket (artifacts p)) = Some bk).
Proof.
  intros Hwl Hp. unfold get_project in Hp.
  destruct (assoc h (children self)) as [[| | | | p' |]|] eqn:Hc;
    try discriminate.
  injection Hp as ->.
  pose proof (well_linked_child _ _ _ Hwl Hc) as Hl. simpl in Hl.
  apply andb_true_iff in Hl as [Hl Hb].
  apply andb_true_iff in Hl as [Hr Hrepo].
  auto using has_kind_role, has_kind_repository, has_kind_bucket.
Qed.

(** In a well-linked stack a pipeline finds its role and its bucket, and
    each of its actions finds the repository it pulls from or the project
    it runs. *)
Lemma well_linked_pipeline (self : Stack) (h : handle) (pl : Pipeline) :
  well_linked self = true ->
  get_pipeline self h = Some pl ->
  (exists r, get_role self (pipeline_role pl) = Some r) /\
  (exists bk, get_bucket self (artifact_bucket pl) = Some bk) /\
  forall st a,
    In st (stages pl) -> In a (stage_actions st) ->
    (forall r, In r (action_repositories a) ->
               exists repo, get_repository self r = Some repo) /\
    (forall p, In p (action_projects a) ->
               exists pr, get_project self p = Some pr).
Proof.
  intros Hwl Hp. unfold get_pipeline in Hp.
  destruct (assoc h (children self)) as [[| | | | | pl']|] eqn:Hc;
    try discriminate.
  injection Hp as ->.
  pose proof (well_linked_child _ _ _ Hwl Hc) as Hl. simpl in Hl.
  apply andb_true_iff in Hl as [Hl Hst].
  apply andb_true_iff in Hl as [Hr Hb].
  split; [now apply has_kind_role |].
  split; [now apply has_kind_bucket |].
  intros st a Hin Ha.
  rewrite forallb_forall in Hst. specialize (Hst st Hin).
  rewrite forallb_forall in Hst. specialize (Hst a Ha).
  destruct a as [nm r br o | nm p i os]; simpl in *.
  - split; [| intros p []].
    intros r' [<- | []]. now apply has_kind_repository.
  - split; [intros r [] |].
    intros p' [<- | []]. now apply has_kind_project.
Qed.

(** X5. The stack the constructor builds has no dangling reference and no
    id used twice: every project of the stack finds in it the role, the
    repository and the bucket it refers to; every pipeline finds its role
    and its bucket, and each of its actions the repository or the project
    it names; every token names a declared parameter or a bucket. *)
Theorem no_dangling_reference (scope : App) (id : string)
    (kw : list (string * string)) :
  assoc id scope = None ->
  exists self,
    CdkPipelineStack scope id kw = inr (scope ++ [(id, self)]) /\
    NoDup (map fst (children self)) /\
    well_linked self = true /\
    (forall h p, get_project self h = Some p ->
       (exists r, get_role self (role p) = Some r) /\
       (exists repo,
           get_repository self (source_repository (source p)) = Some repo) /\
       (exists bk, get_bucket self (bucket (artifacts p)) = Some bk)) /\
    (forall h pl, get_pipeline self h = Some pl ->
       (exists r, get_role self (pipeline_role pl) = Some r) /\
       (exists bk, get_bucket self (artifact_bucket pl) = Some bk) /\
       forall st a,
         In st (stages pl) -> In a (stage_actions st) ->
         (forall r, In r (action_repositories a) ->
                    exists repo, get_repository self r = Some repo) /\
         (forall p, In p (action_projects a) ->
                    exists pr, get_project self p = Some pr)).
Proof.
  intros Hfresh. eexists.
  split; [apply (CdkPipelineStack_fresh _ _ _ Hfresh) |].
  split; [nodup_strings |].
  assert (Hwl : well_linked {| stack_kwargs := kw; children := topology |}
                = true) by reflexivity.
  split; [exact Hwl |].
  split.
  - intros h p. now apply well_linked_project.
  - intros h pl. now apply well_linked_pipeline.
Qed.

Lemma no_dangling_reference_witness :
  assoc "CdkPipelineStack" ([] : App) = None /\
  exists self,
    CdkPipelineStack [] "CdkPipelineStack" []
    = inr [("CdkPipelineStack", self)] /\
    well_linked self = true.
Proof.
  split; [reflexivity |].
  destruct (no_dangling_reference [] "CdkPipelineStack" [] eq_refl)
    as (self & Hrun & _ & Hwl & _).
  exists self. split; [exact Hrun | exact Hwl].
Defined.

Example dangling_role_detected :
  well_linked
    {| stack_kwargs := [];
       children :=
         [("Repo", CRepository {| repository_name := lit "r" |});
          ("Bucket",
           CBucket {| bucket_name := lit "b"; encryption := S3_MANAGED;
                      removal_policy := DESTROY; resource_policy := [] |});
          ("Build",
           CProject
             {| project_name := "Build"; role := "NoSuchRole";
                environment :=
                  {| build_image := STANDARD_5_0; compute_type := SMALL |};
                source := code_commit "Repo";
                artifacts :=
                  {| bucket := "Bucket"; include_build_id := false;
                     package_zip := true; path := ""; identifier := "Out";
                     artifacts_encryption := true |} |})] |}
  = false.
Proof. reflexivity. Qed.

(** ** Artifacts from stage to stage *)

Lemma existsb_eqb_In (x : string) (l : list string) :
  existsb (String.eqb x) l = true <-> In x l.
Proof.
  rewrite existsb_exists. split.
  - intros (y & Hy & Hxy). apply String.eqb_eq in Hxy. now subst.
  - intros H. exists x. split; [exact H | apply String.eqb_refl].
Qed.

(** What [artifacts_flow] checks: an input of a stage is available from
    the start or output by a stage before it. *)
Lemma artifacts_flow_sound (ss : list StageProps) :
  forall available,
    artifacts_flow available ss = true ->
    forall pre s post i,
      ss = pre ++ s :: post ->
      In i (stage_inputs s) ->
      In i available \/ exists s', In s' pre /\ In i (stage_outputs s').
Proof.
  induction ss as [|s0 ss IH]; intros available Hflow pre s post i Hss Hi.
  - now destruct pre.
  - simpl in Hflow.
    apply andb_true_iff in Hflow as [Hflow Hrest].
    apply andb_true_iff in Hflow as [Hin _].
    destruct pre as [|p pre]; simpl in Hss; injection Hss as -> ->.
    + left. rewrite forallb_forall in Hin.
      now apply existsb_eqb_In, Hin.
    + destruct (IH _ Hrest pre s post i eq_refl Hi) as [Hav | (s' & Hs' & Ho)].
      * apply in_app_or in Hav as [Hav | Hav]; [now left |].
        right. exists p. split; [now left | exact Hav].
      * right. exists s'. split; [now right | exact Ho].
Qed.

(** X6. The pipeline and the build project fit together: the only
    repository a stage pulls from is the repository the build project has
    as its source, the only project a stage runs is that build project,
    and every artifact a stage takes as input is output by a stage that
    comes before it. *)
Theorem pipeline_fits_build_project (scope : App) (id : string)
    (kw : list (string * string)) :
  assoc id scope = None ->
  exists self pipeline project,
    CdkPipelineStack scope id kw = inr (scope ++ [(id, self)]) /\
    get_pipeline self "AppPipeline" = Some pipeline /\
    get_project self "AppBuildProject" = Some project /\
    flat_map action_repositories (flat_map stage_actions (stages pipeline))
    = [source_repository (source project)] /\
    flat_map action_projects (flat_map stage_actions (stages pipeline))
    = ["AppBuildProject"] /\
    artifacts_flow [] (stages pipeline) = true /\
    forall pre s post i,
      stages pipeline = pre ++ s :: post ->
      In i (stage_inputs s) ->
      exists s', In s' pre /\ In i (stage_outputs s').
Proof.
  intros Hfresh. do 3 eexists.
  split; [apply (CdkPipelineStack_fresh _ _ _ Hfresh) |].
  do 5 (split; [reflexivity |]).
  intros pre s post i Hst Hi.
  refine (match artifacts_flow_sound _ [] _ pre s post i Hst Hi with
          | or_introl F => match F with end
          | or_intror H => H
          end).
  reflexivity.
Qed.

Lemma pipeline_fits_build_project_witness :
  exists self pipeline src bld,
    CdkPipelineStack [] "CdkPipelineStack" []
    = inr [("CdkPipelineStack", self)] /\
    get_pipeline self "AppPipeline" = Some pipeline /\
    stages pipeline = [src; bld] /\
    exists s', In s' [src] /\ In "SourceOutput" (stage_outputs s').
Proof.
  destruct (pipeline_fits_build_project [] "CdkPipelineStack" [] eq_refl)
    as (self & pipeline & project & Hrun & Hp & _ & _ & _ & _ & Hflow).
  assert (Hst : exists src bld,
             stages pipeline = [src; bld]
             /\ In "SourceOutput" (stage_inputs bld)).
  { vm_compute in Hrun. injection Hrun as <-.
    vm_compute in Hp. injection Hp as <-.
    do 2 eexists. split; [reflexivity | now left]. }
  destruct Hst as (src & bld & Hst & Hin).
  exists self, pipeline, src, bld.
  split; [exact Hrun |]. split; [exact Hp |]. split; [exact Hst |].
  exact (Hflow [src] bld [] "SourceOutput" Hst Hin).
Defined.

(** ** Deployments *)

Lemma parameter_value_supplied env (kw : list (string * string))
    (p : string) :
  p = "S3BucketName" \/ p = "RepositoryName" ->
  parameter_value env {| stack_kwargs := kw; children := topology |} p
  = supplied env p.
Proof.
  unfold supplied.
  intros [-> | ->]; unfold parameter_value; simpl;
    now destruct (assoc _ (parameter_values env)).
Qed.

Ltac eval_deploy Hn Hm :=
  cbv -[parameter_value String.append s3_arn] in Hn, Hm |- *.

(** Resolving the resources of the stack looks at the partition and at the
    two names only. *)
Lemma deploy_resources_built env (kw : list (string * string)) :
  deploy_resources env {| stack_kwargs := kw; children := topology |}
  = match supplied env "S3BucketName", supplied env "RepositoryName" with
    | Some n, Some m =>
        deploy_resources (names_env (partition env) n m)
          {| stack_kwargs := kw; children := topology |}
    | _, _ => None
    end.
Proof.
  rewrite <- !(parameter_value_supplied env kw) by tauto.
  destruct (parameter_value env
              {| stack_kwargs := kw; children := topology |}
              "S3BucketName") as [n|] eqn:Hn;
    destruct (parameter_value env
                {| stack_kwargs := kw; children := topology |}
                "RepositoryName") as [m|] eqn:Hm.
  - remember (deploy_resources env
                {| stack_kwargs := kw; children := topology |})
      as lhs eqn:Hl.
    cbv -[String.append s3_arn]. subst lhs.
    eval_deploy Hn Hm. rewrite Hn, Hm. reflexivity.
  - eval_deploy Hn Hm. rewrite Hn, Hm. reflexivity.
  - eval_deploy Hn Hm. rewrite Hn. reflexivity.
  - eval_deploy Hn Hm. rewrite Hn. reflexivity.
Qed.

Lemma deploy_names env (kw : list (string * string)) (n m : string) :
  exists rs b r,
    deploy_resources (names_env (partition env) n m)
      {| stack_kwargs := kw; children := topology |} = Some rs /\
    assoc "ArtifactBucket" rs = Some (CBucket b) /\
    bucket_name b = lit n /\
    assoc "JavaProjectRepository" rs = Some (CRepository r) /\
    repository_name r = lit m.
Proof.
  do 3 eexists. split; [cbv -[String.append s3_arn]; reflexivity |].
  split; [reflexivity |].
  split; [cbn; now rewrite append_empty_r |].
  split; [reflexivity |].
  cbn. now rewrite append_empty_r.
Qed.

Lemma parameter_value_declared env (kw : list (string * string))
    (p : string) :
  In p required_parameters ->
  parameter_value env {| stack_kwargs := kw; children := topology |} p
  = supplied env p.
Proof.
  unfold supplied.
  intros [<- | [<- | [<- | []]]]; unfold parameter_value; simpl;
    now destruct (assoc _ (parameter_values env)).
Qed.

Lemma parameters_supplied_built env (kw : list (string * string)) :
  parameters_supplied env {| stack_kwargs := kw; children := topology |}
  = true
  <-> supplied env "projectUrl" <> None /\
      supplied env "S3BucketName" <> None /\
      supplied env "RepositoryName" <> None.
Proof.
  unfold parameters_supplied.
  change (parameters {| stack_kwargs := kw; children := topology |})
    with [ {| param_id := "projectUrl"; param_type := "String";
              param_description :=
                "My software pipeline delivery template using Cloudformation and CodeCommit";
              param_default := None |};
           {| param_id := "S3BucketName"; param_type := "String";
              param_description := "S3 bucket name for storing artifacts";
              param_default := None |};
           {| param_id := "RepositoryName"; param_type := "String";
              param_description := "CodeCommit repository name";
              param_default := None |} ].
  cbn [forallb param_id].
  rewrite !parameter_value_declared by (simpl; tauto).
  destruct (supplied env "projectUrl"), (supplied env "S3BucketName"),
    (supplied env "RepositoryName"); simpl;
    split; try discriminate; try (intros _; repeat split; discriminate);
    intros (H1 & H2 & H3); try (now elim H1); try (now elim H2);
    now elim H3.
Qed.



(** X8. Two deployments of the stack that both succeed, in the same
    partition, give the same resources exactly when they supply the same
    bucket name and the same repository name: the two names are
    operational, the value of [projectUrl] is not. *)
Theorem deployment_determined_by_names (scope : App) (id : string)
    (kw : list (string * string)) :
  assoc id scope = None ->
  exists self,
    CdkPipelineStack scope id kw = inr (scope ++ [(id, self)]) /\
    forall e1 e2,
      partition e1 = partition e2 ->
      deploy e1 self <> None ->
      deploy e2 self <> None ->
      (deploy e1 self = deploy e2 self <->
       supplied e1 "S3BucketName" = supplied e2 "S3BucketName" /\
       supplied e1 "RepositoryName" = supplied e2 "RepositoryName").
Proof.
  intros Hfresh. eexists.
  split; [apply (CdkPipelineStack_fresh _ _ _ Hfresh) |].
  intros e1 e2 Hpart. unfold deploy.
  destruct (parameters_supplied e1
              {| stack_kwargs := kw; children := topology |});
    [| intros H; now elim H].
  destruct (parameters_supplied e2
              {| stack_kwargs := kw; children := topology |});
    [| intros _ H; now elim H].
  rewrite !deploy_resources_built.
  intros Hok1 Hok2. split.
  - destruct (supplied e1 "S3BucketName") as [n1|]; [| now elim Hok1].
    destruct (supplied e1 "RepositoryName") as [m1|]; [| now elim Hok1].
    destruct (supplied e2 "S3BucketName") as [n2|]; [| now elim Hok2].
    destruct (supplied e2 "RepositoryName") as [m2|]; [| now elim Hok2].
    destruct (deploy_names e1 kw n1 m1)
      as (rs1 & b1 & r1 & Hrs1 & Hb1 & Hbn1 & Hr1 & Hrn1).
    destruct (deploy_names e2 kw n2 m2)
      as (rs2 & b2 & r2 & Hrs2 & Hb2 & Hbn2 & Hr2 & Hrn2).
    rewrite Hrs1, Hrs2. intros [= ->].
    rewrite Hb2 in Hb1. injection Hb1 as ->.
    rewrite Hr2 in Hr1. injection Hr1 as ->.
    rewrite Hbn2 in Hbn1. injection Hbn1 as ->.
    rewrite Hrn2 in Hrn1. injection Hrn1 as ->.
    split; reflexivity.
  - intros [-> ->]. now rewrite Hpart.
Qed.

Lemma deployment_determined_by_names_witness :
  exists self,
    CdkPipelineStack [] "CdkPipelineStack" []
    = inr [("CdkPipelineStack", self)] /\
    deploy sample_env self
    <> deploy
         {| partition := "aws";
            parameter_values :=
              [("projectUrl", "https://example.org/project");
               ("S3BucketName", "other-bucket");
               ("RepositoryName", "my-repo")] |} self.
Proof.
  destruct (deployment_determined_by_names [] "CdkPipelineStack" [] eq_refl)
    as (self & Hrun & Hsem).
  exists self. split; [exact Hrun |].
  assert (Hok : forall env,
             supplied env "projectUrl" <> None ->
             supplied env "S3BucketName" <> None ->
             supplied env "RepositoryName" <> None ->
             deploy env self <> None).
  { rewrite (CdkPipelineStack_fresh [] "CdkPipelineStack" [] eq_refl)
      in Hrun.
    injection Hrun as <-. intros env H1 H2 H3.
    unfold deploy.
    destruct (parameters_supplied env _) eqn:Hps.
    - rewrite deploy_resources_built.
      destruct (supplied env "S3BucketName") as [n|]; [| now elim H2].
      destruct (supplied env "RepositoryName") as [m|]; [| now elim H3].
      destruct (deploy_names env [] n m) as (rs & _ & _ & Hrs & _).
      rewrite Hrs. discriminate.
    - assert (Ht : parameters_supplied env
                     {| stack_kwargs := []; children := topology |} = true)
        by (apply parameters_supplied_built; auto).
      rewrite Ht in Hps. discriminate Hps. }
  intros Heq.
  apply (Hsem sample_env
           {| partition := "aws";
              parameter_values :=
                [("projectUrl", "https://example.org/project");
                 ("S3BucketName", "other-bucket");
                 ("RepositoryName", "my-repo")] |} eq_refl) in Heq.
  - destruct Heq as [Hn _]. discriminate Hn.
  - apply Hok; discriminate.
  - apply Hok; discriminate.
Defined.
